(** * series-scraper: a shallow embedding of [utils.py]

    The three functions of [utils.py] ([get_top_list], [get_last_season],
    [get_ratings]) are embedded together with the parts of Python, bs4,
    pandas and numpy they rely on:

    - [str] values are [string]s whose characters are code points below
      256; [split], [strip], [replace], [upper], [int] and [float] follow
      the Python built-ins on that range;
    - a parsed page is a tree of tags and text ([Soup]);
    - exceptions are values of [exn], raised through [res] (pure code) or
      through the state-and-exception monad [M] (code that prints, sleeps,
      fetches or reads a DataFrame object);
    - float64 values are [spec_float]s of precision 53. *)

From Stdlib Require Import ZArith Ascii Lia.
From Stdlib Require Import Numbers.DecimalString Floats.SpecFloat.
From stdpp Require Import base option list strings gmap.

#[local] Set Warnings "-register-all".

Open Scope Z_scope.

(** ** Exceptions *)

Inductive exn : Type :=
  | ValueError
  | AttributeError
  | TypeError
  | KeyError
  | IndexError
  | NameError
  | UnboundLocalError
  | OverflowError
  | ConnectionError.

Global Instance exn_eq_dec : EqDecision exn.
Proof. solve_decision. Defined.

(** The outcome of an expression: a value, or a raised exception. *)
Inductive res (A : Type) : Type :=
  | Ok (a : A)
  | Raise (e : exn).
Arguments Ok {A} a.
Arguments Raise {A} e.

Global Instance res_ret : MRet res := fun _ a => Ok a.
Global Instance res_bind : MBind res := fun _ _ f r =>
  match r with
  | Ok a => f a
  | Raise e => Raise e
  end.

(** [try: r except e => h]: the handler runs only for the named exception. *)
Definition try_except {A} (r : res A) (e : exn) (h : res A) : res A :=
  match r with
  | Ok a => Ok a
  | Raise e' => if decide (e' = e) then h else Raise e'
  end.

(** ** Python strings *)

Module Str.

(** [str.isspace] on one character (code points below 256). *)
Definition is_space (c : ascii) : bool :=
  let n := N_of_ascii c in
  ((9 <=? n) && (n <=? 13) || (28 <=? n) && (n <=? 32)
   || (n =? 133) || (n =? 160))%N.

Fixpoint lstrip (s : string) : string :=
  match s with
  | String c s' => if is_space c then lstrip s' else s
  | EmptyString => EmptyString
  end.

Fixpoint rstrip (s : string) : string :=
  match s with
  | String c s' =>
      match rstrip s' with
      | EmptyString => if is_space c then EmptyString else String c EmptyString
      | r => String c r
      end
  | EmptyString => EmptyString
  end.

(** [s.strip()] *)
Definition strip (s : string) : string := rstrip (lstrip s).

(** [s.split(sep)] for a one-character separator: never an empty list. *)
Fixpoint split (sep : ascii) (s : string) : list string :=
  match s with
  | EmptyString => [EmptyString]
  | String c s' =>
      if Ascii.eqb c sep then EmptyString :: split sep s'
      else match split sep s' with
           | w :: ws => String c w :: ws
           | [] => [String c EmptyString]
           end
  end.

(** [s.replace(old, new)] for a one-character [old]. *)
Fixpoint replace (old : ascii) (new : string) (s : string) : string :=
  match s with
  | EmptyString => EmptyString
  | String c s' =>
      (if Ascii.eqb c old then new else String c EmptyString) +:+ replace old new s'
  end.

(** [c.upper()] for one character. The sharp s becomes two letters; the
    micro sign and y-diaeresis, whose capitals lie above code point 255,
    are kept as they are. *)
Definition upper_char (c : ascii) : string :=
  let n := N_of_ascii c in
  if ((97 <=? n) && (n <=? 122) || (224 <=? n) && (n <=? 254) && negb (n =? 247))%N
  then String (ascii_of_N (n - 32)) EmptyString
  else if (n =? 223)%N then "SS"
  else String c EmptyString.

(** [s.upper()] *)
Fixpoint upper (s : string) : string :=
  match s with
  | EmptyString => EmptyString
  | String c s' => upper_char c +:+ upper s'
  end.

(** [l[i]] on a list. *)
Definition index {A} (l : list A) (i : nat) : res A :=
  match l !! i with
  | Some a => Ok a
  | None => Raise IndexError
  end.

(** [str(n)] / [f"{n}"] for an integer. *)
Definition of_Z (n : Z) : string := NilZero.string_of_int (Z.to_int n).

(** The words of [s]: maximal runs of non-space characters. *)
Fixpoint words_aux (cur : option string) (s : string) : list string :=
  match s with
  | EmptyString => match cur with Some w => [w] | None => [] end
  | String c s' =>
      if is_space c then
        match cur with Some w => w :: words_aux None s' | None => words_aux None s' end
      else
        words_aux (Some (match cur with Some w => w +:+ String c EmptyString
                                   | None => String c EmptyString end)) s'
  end.
Definition words (s : string) : list string := words_aux None s.

End Str.

(** ** Numbers from text *)

Module Num.

Definition digit_of (c : ascii) : option Z :=
  let n := N_of_ascii c in
  if ((48 <=? n) && (n <=? 57))%N then Some (Z.of_N n - 48) else None.

(** Reads on after a digit: further digits, each optionally preceded by one
    underscore. Returns the value, the number of digits read and the rest. *)
Fixpoint digits_loop (acc : Z) (n : nat) (s : string) : Z * nat * string :=
  match s with
  | String c s' =>
      match digit_of c with
      | Some d => digits_loop (10 * acc + d) (S n) s'
      | None =>
          if Ascii.eqb c "_" then
            match s' with
            | String c' s'' =>
                match digit_of c' with
                | Some d => digits_loop (10 * acc + d) (S n) s''
                | None => (acc, n, s)
                end
            | EmptyString => (acc, n, s)
            end
          else (acc, n, s)
      end
  | EmptyString => (acc, n, s)
  end.

(** A digit part: at least one digit. *)
Definition digitpart (s : string) : option (Z * nat * string) :=
  match s with
  | String c _ =>
      match digit_of c with
      | Some _ => Some (digits_loop 0 0 s)
      | None => None
      end
  | EmptyString => None
  end.

Definition sign_of (s : string) : bool * string :=
  match s with
  | String "-" r => (true, r)
  | String "+" r => (false, r)
  | _ => (false, s)
  end.

(** [int(s)] for a [str] argument (base 10). *)
Definition int_of_str (s : string) : res Z :=
  let '(neg, body) := sign_of (Str.strip s) in
  match digitpart body with
  | Some (v, _, EmptyString) => Ok (if neg then - v else v)
  | _ => Raise ValueError
  end.

(** *** float64 *)

Definition prec : Z := 53.
Definition emax : Z := 1024.

Definition float64 : Type := spec_float.

(** The float64 nearest to [(-1)^neg * m * 10^e10] (ties to even). *)
Definition of_decimal (neg : bool) (m e10 : Z) : float64 :=
  if m =? 0 then S754_zero neg
  else if 0 <=? e10 then
    binary_normalize prec emax (if neg then - (m * 10 ^ e10) else m * 10 ^ e10) 0 neg
  else
    let '(q, e, l) := SFdiv_core_binary prec emax m 0 (10 ^ (- e10)) 0 in
    binary_round_aux prec emax neg q e l.

(** [float(n)] for a Python integer. *)
Definition float_of_Z (n : Z) : res float64 :=
  match binary_normalize prec emax n 0 false with
  | S754_infinity _ => Raise OverflowError
  | f => Ok f
  end.

Definition lower_char (c : ascii) : ascii :=
  let n := N_of_ascii c in
  if ((65 <=? n) && (n <=? 90))%N then ascii_of_N (n + 32) else c.

Fixpoint lower (s : string) : string :=
  match s with
  | EmptyString => EmptyString
  | String c s' => String (lower_char c) (lower s')
  end.

(** The optional exponent of a float literal: [e], an optional sign and a
    digit part, up to the end of the text. *)
Definition exponent (s : string) : option Z :=
  match s with
  | EmptyString => Some 0
  | String c r =>
      if Ascii.eqb (lower_char c) "e" then
        let '(neg, body) := sign_of r in
        match digitpart body with
        | Some (v, _, EmptyString) => Some (if neg then - v else v)
        | _ => None
        end
      else None
  end.

(** [float(s)] for a [str] argument. *)
Definition float_of_str (s : string) : res float64 :=
  let '(neg, body) := sign_of (Str.strip s) in
  let low := lower body in
  if (String.eqb low "inf" || String.eqb low "infinity")%bool then Ok (S754_infinity neg)
  else if String.eqb low "nan" then Ok S754_nan
  else
    let '(ip, nip, r1) :=
      match digitpart body with Some x => x | None => (0, 0%nat, body) end in
    let '(fp, nfp, r2) :=
      match r1 with
      | String "." r =>
          match digitpart r with Some x => x | None => (0, 0%nat, r) end
      | _ => (0, 0%nat, r1)
      end in
    if (nip + nfp =? 0)%nat then Raise ValueError
    else match exponent r2 with
         | Some e => Ok (of_decimal neg (ip * 10 ^ Z.of_nat nfp + fp) (e - Z.of_nat nfp))
         | None => Raise ValueError
         end.

End Num.

(** ** Parsed pages (bs4) *)

Module Soup.

(** A parsed document: tags with a name, attributes and contents, and the
    text between them. *)
Inductive node : Type :=
  | Text (s : string)
  | Tag (name : string) (attrs : list (string * string)) (contents : list node).

(** [tag.text]: all the text below the tag, in document order. *)
Fixpoint text (n : node) : string :=
  match n with
  | Text s => s
  | Tag _ _ cs =>
      (fix go (l : list node) : string :=
         match l with
         | [] => EmptyString
         | c :: l' => text c +:+ go l'
         end) cs
  end.

(** Everything below a node, in document order. *)
Fixpoint descendants (n : node) : list node :=
  match n with
  | Text _ => []
  | Tag _ _ cs =>
      (fix go (l : list node) : list node :=
         match l with
         | [] => []
         | c :: l' => c :: descendants c ++ go l'
         end) cs
  end.

Fixpoint assoc (k : string) (l : list (string * string)) : option string :=
  match l with
  | [] => None
  | (k', v) :: l' => if String.eqb k' k then Some v else assoc k l'
  end.

(** [tag.attrs.get(k)] *)
Definition attr (k : string) (n : node) : option string :=
  match n with
  | Tag _ attrs _ => assoc k attrs
  | Text _ => None
  end.

(** What [find] and [find_all] look for: a tag name (or any) and attribute
    values; [class_] is the attribute ["class"]. *)
Record query : Type := Query {
  q_name : option string;
  q_attrs : list (string * string)
}.

(** One attribute filter. A class filter (a single class name) holds when
    the name is one of the tag's classes; any other attribute must have
    exactly the value asked for. *)
Definition attr_matches (n : node) (kv : string * string) : bool :=
  match attr kv.1 n with
  | Some v =>
      if String.eqb kv.1 "class" then bool_decide (kv.2 ∈ Str.words v)
      else String.eqb v kv.2
  | None => false
  end.

Definition matches (q : query) (n : node) : bool :=
  match n with
  | Tag name _ _ =>
      match q_name q with
      | Some x => String.eqb name x
      | None => true
      end && forallb (attr_matches n) (q_attrs q)
  | Text _ => false
  end.

(** [tag.find_all(...)] *)
Definition find_all (q : query) (n : node) : list node :=
  List.filter (matches q) (descendants n).

(** [tag.find(...)]: the first match, or [None]. *)
Definition find (q : query) (n : node) : option node :=
  head (find_all q n).

(** [x.text] where [x] is what [find] returned. *)
Definition get_text (x : option node) : res string :=
  match x with
  | Some n => Ok (text n)
  | None => Raise AttributeError
  end.

(** [tag[k]] on a tag. *)
Definition getitem (n : node) (k : string) : res string :=
  match attr k n with
  | Some v => Ok v
  | None => Raise KeyError
  end.

End Soup.

(** What a name bound to the outcome of a lookup may hold: the outcome of
    [find] (a tag or [None]), or an integer. *)
Inductive pyobj : Type :=
  | Node (x : option Soup.node)
  | IntObj (n : Z).

(** [x[k]]: only a tag can be subscripted. *)
Definition subscript (x : pyobj) (k : string) : res string :=
  match x with
  | Node (Some n) => Soup.getitem n k
  | Node None => Raise TypeError
  | IntObj _ => Raise TypeError
  end.

(** A cell of an object-typed column: a [str] or an [int]. *)
Inductive pyval : Type :=
  | PStr (s : string)
  | PInt (n : Z).

(** ** Tables *)

(** A row of the listing table while it is being filled. *)
Record ListingRow : Type := {
  l_series_name : string;
  l_series_rank : string;
  l_series_origin_year : string;
  l_series_link : string
}.

(** A row of the table [get_top_list] returns. *)
Record SeriesEntry : Type := {
  series_name : string;
  series_rank : string;
  series_origin_year : string;
  series_link : string;
  series_id : string
}.

(** A row of the episode table before the final [astype]. *)
Record RawEpisode : Type := {
  r_series_name : string;
  r_series_rank : string;
  r_series_origin_year : string;
  r_series_link : string;
  r_series_n_seasons : Z;
  r_season : Z;
  r_episode : string;
  r_episode_rating : pyval;
  r_episode_total_votes : pyval;
  r_episode_description : string
}.

(** A row of the table [get_ratings] returns. *)
Record EpisodeEntry : Type := {
  e_series_name : string;
  e_series_rank : Z;
  e_series_origin_year : Z;
  e_series_link : string;
  e_series_n_seasons : Z;
  e_season : Z;
  e_episode : Z;
  e_episode_rating : Num.float64;
  e_episode_total_votes : Z;
  e_episode_description : string
}.

(** [series.item()]: the only element, else [ValueError]. *)
Definition item {A} (l : list A) : res A :=
  match l with
  | [x] => Ok x
  | _ => Raise ValueError
  end.

(** [top_list[top_list['series_name'] == name]] *)
Definition select_name (name : string) (t : list SeriesEntry) : list SeriesEntry :=
  List.filter (fun r => String.eqb (series_name r) name) t.

(** [np.arange(a, b)] on integers. *)
Definition arange (a b : Z) : list Z :=
  (fun i => a + Z.of_nat i) <$> seq 0 (Z.to_nat (b - a)).

(** *** Conversion to the declared column types *)

Definition int64_range (n : Z) : res Z :=
  if (- 2 ^ 63 <=? n) && (n <? 2 ^ 63) then Ok n else Raise OverflowError.

Definition str_to_int64 (s : string) : res Z :=
  n ← Num.int_of_str s; int64_range n.

Definition to_int64 (v : pyval) : res Z :=
  match v with
  | PStr s => str_to_int64 s
  | PInt n => int64_range n
  end.

Definition to_float64 (v : pyval) : res Num.float64 :=
  match v with
  | PStr s => Num.float_of_str s
  | PInt n => Num.float_of_Z n
  end.

Definition astype_row (r : RawEpisode) : res EpisodeEntry :=
  rank ← str_to_int64 (r_series_rank r);
  year ← str_to_int64 (r_series_origin_year r);
  n_seasons ← int64_range (r_series_n_seasons r);
  season ← int64_range (r_season r);
  episode ← str_to_int64 (r_episode r);
  rating ← to_float64 (r_episode_rating r);
  votes ← to_int64 (r_episode_total_votes r);
  mret {| e_series_name := r_series_name r;
          e_series_rank := rank;
          e_series_origin_year := year;
          e_series_link := r_series_link r;
          e_series_n_seasons := n_seasons;
          e_season := season;
          e_episode := episode;
          e_episode_rating := rating;
          e_episode_total_votes := votes;
          e_episode_description := r_episode_description r |}.

(** [df.astype({...})]: every cell is converted, or the call raises. Cells
    are visited row by row here; pandas goes column by column, which can
    only change which of several failing cells is reported. *)
Definition astype (df : list RawEpisode) : res (list EpisodeEntry) :=
  mapM astype_row df.

(** ** The world: DataFrame objects, console, clock and network *)

(** The address of a DataFrame object. *)
Definition loc : Type := nat.

(** What a run does to the outside, in order. *)
Inductive event : Type :=
  | Printed (line : string)
  | Slept (seconds : Z)
  | Requested (url : string).

Record world : Type := World {
  (** the DataFrame objects of the caller, by address *)
  frames : gmap loc (list SeriesEntry);
  (** everything printed, slept and requested so far, oldest first *)
  trace : list event;
  (** the draws [random] will hand out *)
  entropy : list Z
}.

(** A statement: it runs in a world, returns or raises, and leaves a world. *)
Definition M (A : Type) : Type := world → res A * world.

Global Instance M_ret : MRet M := fun _ a w => (Ok a, w).
Global Instance M_bind : MBind M := fun _ _ f m w =>
  match m w with
  | (Ok a, w') => f a w'
  | (Raise e, w') => (Raise e, w')
  end.

(** A pure expression used as a statement. *)
Definition lift {A} (r : res A) : M A := fun w => (r, w).

(** [try: m except e: h] *)
Definition try_exceptM {A} (m : M A) (e : exn) (h : M A) : M A := fun w =>
  match m w with
  | (Ok a, w') => (Ok a, w')
  | (Raise e', w') => if decide (e' = e) then h w' else (Raise e', w')
  end.

(** The world after one more event. *)
Definition log (ev : event) (w : world) : world :=
  {| frames := frames w; trace := trace w ++ [ev]; entropy := entropy w |}.

(** The world after one draw was handed out. *)
Definition pop (w : world) : world :=
  {| frames := frames w; trace := trace w; entropy := tail (entropy w) |}.

Definition emit (ev : event) : M unit := fun w => (Ok tt, log ev w).

(** [print(line)] *)
Definition print (line : string) : M unit := emit (Printed line).

(** [time.sleep(seconds)] *)
Definition sleep (seconds : Z) : M unit := emit (Slept seconds).

(** The draw [random.randint(a, b)] takes from a supply: its head, brought
    into [a..b]; [a] once the supply is used up. *)
Definition draw (a b : Z) (supply : list Z) : Z :=
  match supply with
  | d :: _ => a + d `mod` (b - a + 1)
  | [] => a
  end.

(** [random.randint(a, b)] *)
Definition randint (a b : Z) : M Z := fun w => (Ok (draw a b (entropy w)), pop w).

(** A session (or [requests] itself): what a GET of a URL gives, already
    parsed by [bs(page.content, "lxml")], or the exception it raises. *)
Definition session : Type := string → res Soup.node.

(** [bs(session.get(URL).content, "lxml")] *)
Definition fetch (s : session) (URL : string) : M Soup.node :=
  emit (Requested URL);; lift (s URL).

(** Reading the DataFrame object at an address. An address outside the
    store stands for a name that was never bound. *)
Definition read_frame (top_list : loc) : M (list SeriesEntry) := fun w =>
  match frames w !! top_list with
  | Some t => (Ok t, w)
  | None => (Raise NameError, w)
  end.

(** Reading a local variable that an earlier statement may have left
    unassigned. *)
Definition local {A} (x : option A) : M A :=
  match x with
  | Some a => mret a
  | None => lift (Raise UnboundLocalError)
  end.

(** [for x in l: s = body(s, x)] *)
Fixpoint for_each {A S} (l : list A) (body : S → A → M S) (s : S) : M S :=
  match l with
  | [] => mret s
  | x :: l' => s' ← body s x; for_each l' body s'
  end.

(** ** [get_top_list] *)

Definition top_URL : string := "https://www.imdb.com/chart/toptv/?ref_=nv_tvv_250".

Definition q_titleColumn : Soup.query :=
  Soup.Query (Some "td") [("class", "titleColumn")].
Definition q_a : Soup.query := Soup.Query (Some "a") [].

(** The body of the loop over the title cells: one row, or the exception
    the cell makes the body raise. *)
Definition listing_row (ser : Soup.node) : res ListingRow :=
  let series_link := Node (Soup.find q_a ser) in
  rank ← Str.index (Str.split "." (Soup.text ser)) 0;
  let series_rank := Str.strip rank in
  title ← Str.index (Str.split "." (Soup.text ser)) 1;
  title ← Str.index (Str.split "(" title) 0;
  let series_title := Str.strip title in
  year ← Str.index (Str.split "(" (Soup.text ser)) 1;
  let series_year := Str.strip (Str.replace ")" "" year) in
  href ← subscript series_link "href";
  mret {| l_series_name := series_title;
          l_series_rank := series_rank;
          l_series_origin_year := series_year;
          l_series_link := href |}.

(** [top_list['series_id'] = top_list['series_name'] + " (" +
    top_list['series_origin_year'] + ")"], on the whole table. *)
Definition add_series_id (top_list : list ListingRow) : list SeriesEntry :=
  (fun r => {| series_name := l_series_name r;
               series_rank := l_series_rank r;
               series_origin_year := l_series_origin_year r;
               series_link := l_series_link r;
               series_id := l_series_name r +:+ " (" +:+ l_series_origin_year r +:+ ")" |})
    <$> top_list.

(** The loop of [get_top_list]: each row is appended to the table. *)
Fixpoint listing_loop (all_series : list Soup.node) (top_list : list ListingRow)
    : res (list ListingRow) :=
  match all_series with
  | [] => Ok top_list
  | ser :: rest =>
      row ← listing_row ser;
      listing_loop rest (top_list ++ [row])
  end.

Definition get_top_list (requests : session) : M (list SeriesEntry) :=
  soup ← fetch requests top_URL;
  let top_list := [] in
  let all_series := Soup.find_all q_titleColumn soup in
  top_list ← lift (listing_loop all_series top_list);
  let top_list := add_series_id top_list in
  mret top_list.

(** ** [get_last_season] *)

Definition banner : string :=
  "########################################################################################".

Definition q_season_select : Soup.query :=
  Soup.Query (Some "select") [("id", "browse-episodes-season")].

(** The [try] around the link lookup: the link when exactly one row has the
    name; otherwise the message is printed and the variable stays unbound. *)
Definition lookup_link (series_name : string) (top_list : loc) : M (option string) :=
  try_exceptM
    (t ← read_frame top_list;
     link ← lift (item (series_link <$> select_name series_name t));
     mret (Some link))
    ValueError
    (print (Str.upper series_name
            +:+ " references more than one series. Exclude it from the dataset.");;
     mret None).

Definition get_last_season (series_name : string) (top_list : loc) (s : session) : M Z :=
  print banner;;
  print ("SCRAPING: " +:+ Str.upper series_name);;
  seconds ← randint 5 15;
  sleep seconds;;
  series_link ← lookup_link series_name top_list;
  series_link ← local series_link;
  let URL := "https://www.imdb.com" +:+ series_link in
  soup ← fetch s URL;
  let max_season := Soup.find q_season_select soup in
  max_season ←
    match max_season with
    | None => mret 1
    | Some sel =>
        lift (label ← Soup.getitem sel "aria-label";
              token ← Str.index (Str.split " " label) 0;
              Num.int_of_str token)
    end;
  print ("##### TOTAL SEASONS: " +:+ Str.of_Z max_season);;
  mret max_season.

(** ** [get_ratings] *)

Definition q_info : Soup.query := Soup.Query None [("class", "info")].
Definition q_description : Soup.query :=
  Soup.Query (Some "div") [("class", "item_description")].
Definition q_rating : Soup.query :=
  Soup.Query (Some "span") [("class", "ipl-rating-star__rating")].
Definition q_total_votes : Soup.query :=
  Soup.Query (Some "span") [("class", "ipl-rating-star__total-votes")].
Definition q_episodeNumber : Soup.query :=
  Soup.Query (Some "meta") [("itemprop", "episodeNumber")].

(** The four [try] blocks of the loop over the episode blocks. *)
Definition episode_description (episode : Soup.node) : res string :=
  try_except
    (t ← Soup.get_text (Soup.find q_description episode);
     mret (Str.strip t))
    AttributeError
    (mret "N/A").

Definition episode_rating (episode : Soup.node) : res pyval :=
  try_except
    (t ← Soup.get_text (Soup.find q_rating episode);
     mret (PStr t))
    AttributeError
    (mret (PInt (-1))).

Definition episode_total_votes (episode : Soup.node) : res pyval :=
  try_except
    (t ← Soup.get_text (Soup.find q_total_votes episode);
     mret (PStr (Str.replace "," "" (Str.replace ")" "" (Str.replace "(" "" t)))))
    AttributeError
    (mret (PInt 0)).

Definition episode_number (episode : Soup.node) : res pyobj :=
  try_except
    (mret (Node (Soup.find q_episodeNumber episode)))
    AttributeError
    (mret (IntObj (-1))).

(** [top_list[top_list['series_name'] == series_name][column].item()] *)
Definition lookup_column (column : SeriesEntry → string) (series_name : string)
    (top_list : loc) : M string :=
  t ← read_frame top_list;
  lift (item (column <$> select_name series_name t)).

(** The body of the loop over the episode blocks of one season page. *)
Definition episode_row (series_name : string) (top_list : loc)
    (series_link : option string) (seasons season : Z) (episode : Soup.node)
    : M RawEpisode :=
  description ← lift (episode_description episode);
  rating ← lift (episode_rating episode);
  total_votes ← lift (episode_total_votes episode);
  number ← lift (episode_number episode);
  rank ← lookup_column series_rank series_name top_list;
  year ← lookup_column series_origin_year series_name top_list;
  link ← local series_link;
  content ← lift (subscript number "content");
  mret {| r_series_name := series_name;
          r_series_rank := rank;
          r_series_origin_year := year;
          r_series_link := link;
          r_series_n_seasons := seasons;
          r_season := season;
          r_episode := content;
          r_episode_rating := rating;
          r_episode_total_votes := total_votes;
          r_episode_description := description |}.

(** The body of the loop over the seasons. *)
Definition season_rows (series_name : string) (top_list : loc) (s : session)
    (series_link : option string) (seasons : Z)
    (df : list RawEpisode) (season : Z) : M (list RawEpisode) :=
  seconds ← randint 5 15;
  sleep seconds;;
  link ← local series_link;
  let URL := "https://www.imdb.com" +:+ link +:+ "episodes?season=" +:+ Str.of_Z season in
  soup ← fetch s URL;
  let all_episode_info := Soup.find_all q_info soup in
  df ← for_each all_episode_info
         (fun df episode =>
            row ← episode_row series_name top_list series_link seasons season episode;
            mret (df ++ [row]))
         df;
  print ("######## SEASON " +:+ Str.of_Z season +:+ " SCRAPED");;
  mret df.

Definition get_ratings (series_name : string) (top_list : loc) (s : session)
    : M (list EpisodeEntry) :=
  series_link ← lookup_link series_name top_list;
  let df := [] in
  seasons ← get_last_season series_name top_list s;
  print "##### GETTING EPISODES...";;
  df ← for_each (arange 1 (seasons + 1))
         (season_rows series_name top_list s series_link seasons) df;
  print (Str.upper series_name +:+ " - TOTAL EPISODES: "
         +:+ Str.of_Z (Z.of_nat (length df)));;
  print banner;;
  lift (astype df).

(** ** Notions used in the statements *)

(** A statement keeps the frames when the store of DataFrame objects is the
    same after it as before, whether it returns or raises. *)
Definition keeps_frames {A} (m : M A) : Prop :=
  ∀ w, frames (m w).2 = frames w.

Definition ambiguous_message (series_name : string) : string :=
  Str.upper series_name +:+ " references more than one series. Exclude it from the dataset.".

(** The world when [get_last_season] reaches the link lookup. *)
Definition started (name : string) (w : world) : world :=
  log (Slept (draw 5 15 (entropy w)))
    (pop (log (Printed ("SCRAPING: " +:+ Str.upper name)) (log (Printed banner) w))).

(** What the [if]/[else] on the season selector gives. *)
Definition season_count (soup : Soup.node) : res Z :=
  match Soup.find q_season_select soup with
  | None => Ok 1
  | Some sel =>
      label ← Soup.getitem sel "aria-label";
      token ← Str.index (Str.split " " label) 0;
      Num.int_of_str token
  end.

Definition detail_URL (r : SeriesEntry) : string :=
  "https://www.imdb.com" +:+ series_link r.

(** What the four [try] blocks leave in their variables. *)
Definition description_cell (episode : Soup.node) : string :=
  match Soup.find q_description episode with
  | Some n => Str.strip (Soup.text n)
  | None => "N/A"
  end.

Definition rating_cell (episode : Soup.node) : pyval :=
  match Soup.find q_rating episode with
  | Some n => PStr (Soup.text n)
  | None => PInt (-1)
  end.

Definition votes_cell (episode : Soup.node) : pyval :=
  match Soup.find q_total_votes episode with
  | Some n =>
      PStr (Str.replace "," "" (Str.replace ")" "" (Str.replace "(" "" (Soup.text n))))
  | None => PInt 0
  end.

(** The row an episode block gives once the series is known. *)
Definition raw_episode (name : string) (r : SeriesEntry) (seasons season : Z)
    (episode : Soup.node) : res RawEpisode :=
  content ← subscript (Node (Soup.find q_episodeNumber episode)) "content";
  mret {| r_series_name := name;
          r_series_rank := series_rank r;
          r_series_origin_year := series_origin_year r;
          r_series_link := series_link r;
          r_series_n_seasons := seasons;
          r_season := season;
          r_episode := content;
          r_episode_rating := rating_cell episode;
          r_episode_total_votes := votes_cell episode;
          r_episode_description := description_cell episode |}.

Definition season_URL (r : SeriesEntry) (season : Z) : string :=
  "https://www.imdb.com" +:+ series_link r +:+ "episodes?season=" +:+ Str.of_Z season.

(** The world when a season iteration has sent its request. *)
Definition requested (URL : string) (w : world) : world :=
  log (Requested URL) (log (Slept (draw 5 15 (entropy w))) (pop w)).

(** The rows of one season page. *)
Definition page_rows (name : string) (r : SeriesEntry) (seasons season : Z)
    (page : Soup.node) : res (list RawEpisode) :=
  mapM (raw_episode name r seasons season) (Soup.find_all q_info page).

(** The world when the season loop of [get_ratings] starts. *)
Definition collecting (w : world) : world :=
  log (Printed "##### GETTING EPISODES...") w.

(** The world when [get_ratings] reaches its final [astype]. *)
Definition collected (name : string) (df : list RawEpisode) (w : world) : world :=
  log (Printed banner)
    (log (Printed (Str.upper name +:+ " - TOTAL EPISODES: "
                   +:+ Str.of_Z (Z.of_nat (length df)))) w).

(** ** Sample listings and pages *)

(** Two series that share a name. *)
Definition hoc_table : list SeriesEntry :=
  [ {| series_name := "House of Cards"; series_rank := "91";
       series_origin_year := "2013"; series_link := "/title/tt1856010/";
       series_id := "House of Cards (2013)" |};
    {| series_name := "House of Cards"; series_rank := "120";
       series_origin_year := "1990"; series_link := "/title/tt0098825/";
       series_id := "House of Cards (1990)" |} ].

Definition hoc_world : world :=
  {| frames := {[ 0%nat := hoc_table ]}; trace := []; entropy := [] |}.

(** A session that cannot reach anything. *)
Definition offline : session := fun _ => Raise ConnectionError.

Definition bb_entry : SeriesEntry :=
  {| series_name := "Breaking Bad"; series_rank := "1";
     series_origin_year := "2008"; series_link := "/title/tt0903747/";
     series_id := "Breaking Bad (2008)" |}.

Definition bb_world : world :=
  {| frames := {[ 0%nat := [bb_entry] ]}; trace := []; entropy := [7; 3] |}.

(** A detail page with a season selector. *)
Definition eight_seasons_page : Soup.node :=
  Soup.Tag "html" []
    [Soup.Tag "body" []
       [Soup.Tag "select"
          [("id", "browse-episodes-season"); ("aria-label", "8 seasons")]
          [Soup.Tag "option" [("value", "1")] [Soup.Text "1"]]]].

Definition eight_seasons_session : session := fun _ => Ok eight_seasons_page.

(** An episode block without the episode-number node. *)
Definition unnumbered_block : Soup.node :=
  Soup.Tag "div" [("class", "info")]
    [Soup.Tag "span" [("class", "ipl-rating-star__rating")] [Soup.Text "8.4"];
     Soup.Tag "span" [("class", "ipl-rating-star__total-votes")] [Soup.Text "(1,234)"];
     Soup.Tag "div" [("class", "item_description")] [Soup.Text "A teacher turns to crime."]].

(** A single-season series: the detail page has no season selector. *)
Definition plain_page : Soup.node := Soup.Tag "html" [] [Soup.Tag "body" [] []].

Definition unnumbered_session : session := fun URL =>
  if String.eqb URL "https://www.imdb.com/title/tt0903747/" then Ok plain_page
  else if String.eqb URL "https://www.imdb.com/title/tt0903747/episodes?season=1"
  then Ok (Soup.Tag "html" [] [Soup.Tag "body" [] [unnumbered_block]])
  else Raise ConnectionError.

(** The float64 values -1.0, 0.0, 10.0 and 8.4 (the float64 nearest to 8.4). *)
Definition f_minus_one : Num.float64 := S754_finite true 4503599627370496 (-52).
Definition f_zero : Num.float64 := S754_zero false.
Definition f_ten : Num.float64 := S754_finite false 5629499534213120 (-49).
Definition f_8_4 : Num.float64 := S754_finite false 4728779608739021 (-49).

(** An episode block with its number and nothing else. *)
Definition bare_block : Soup.node :=
  Soup.Tag "div" [("class", "info")]
    [Soup.Tag "meta" [("itemprop", "episodeNumber"); ("content", "1")] []].

Definition bare_session : session := fun URL =>
  if String.eqb URL "https://www.imdb.com/title/tt0903747/" then Ok plain_page
  else if String.eqb URL "https://www.imdb.com/title/tt0903747/episodes?season=1"
  then Ok (Soup.Tag "html" [] [Soup.Tag "body" [] [bare_block]])
  else Raise ConnectionError.

(** A full episode block, and the season page and session around it. *)
Definition full_block : Soup.node :=
  Soup.Tag "div" [("class", "info")]
    [Soup.Tag "meta" [("itemprop", "episodeNumber"); ("content", "3")] [];
     Soup.Tag "span" [("class", "ipl-rating-star__rating")] [Soup.Text "8.4"];
     Soup.Tag "span" [("class", "ipl-rating-star__total-votes")] [Soup.Text "(1,234)"];
     Soup.Tag "div" [("class", "item_description")]
       [Soup.Text "  A teacher turns to crime. "]].

Definition full_page : Soup.node :=
  Soup.Tag "html" [] [Soup.Tag "body" [] [full_block]].

Definition full_session : session := fun URL =>
  if String.eqb URL "https://www.imdb.com/title/tt0903747/" then Ok plain_page
  else if String.eqb URL "https://www.imdb.com/title/tt0903747/episodes?season=1"
  then Ok full_page
  else Raise ConnectionError.

(** The bounds the specification states for the rows of [get_ratings]. *)
Definition rating_in_bounds (f : Num.float64) : Prop :=
  f = f_minus_one
  ∨ (SFleb f_zero f = true ∧ SFleb f f_ten = true).

Definition votes_in_bounds (n : Z) : Prop := n = 0 ∨ 0 ≤ n.

Definition description_in_bounds (d : string) : Prop := d ≠ "" ∨ d = "N/A".

Definition within_stated_bounds (e : EpisodeEntry) : Prop :=
  rating_in_bounds (e_episode_rating e)
  ∧ votes_in_bounds (e_episode_total_votes e)
  ∧ description_in_bounds (e_episode_description e).

(** An episode block whose nodes hold unusual text. *)
Definition odd_block : Soup.node :=
  Soup.Tag "div" [("class", "info")]
    [Soup.Tag "meta" [("itemprop", "episodeNumber"); ("content", "1")] [];
     Soup.Tag "span" [("class", "ipl-rating-star__rating")] [Soup.Text "11.5"];
     Soup.Tag "span" [("class", "ipl-rating-star__total-votes")] [Soup.Text "(-5)"];
     Soup.Tag "div" [("class", "item_description")] [Soup.Text "  "]].

Definition odd_session : session := fun URL =>
  if String.eqb URL "https://www.imdb.com/title/tt0903747/" then Ok plain_page
  else if String.eqb URL "https://www.imdb.com/title/tt0903747/episodes?season=1"
  then Ok (Soup.Tag "html" [] [Soup.Tag "body" [] [odd_block]])
  else Raise ConnectionError.

(** The world when [get_top_list] has sent its request. *)
Definition listed (w : world) : world := log (Requested top_URL) w.

(** The chart page with the one row of Breaking Bad. *)
Definition bb_cell : Soup.node :=
  Soup.Tag "td" [("class", "titleColumn")]
    [Soup.Text "1. ";
     Soup.Tag "a" [("href", "/title/tt0903747/")] [Soup.Text "Breaking Bad"];
     Soup.Text " ";
     Soup.Tag "span" [("class", "secondaryInfo")] [Soup.Text "(2008)"]].

Definition bb_chart : Soup.node :=
  Soup.Tag "html" []
    [Soup.Tag "body" [] [Soup.Tag "table" [] [Soup.Tag "tr" [] [bb_cell]]]].

Definition bb_requests : session := fun _ => Ok bb_chart.

Definition empty_world : world := {| frames := ∅; trace := []; entropy := [] |}.

(** A chart row whose rank and year are not numbers. *)
Definition worded_chart : Soup.node :=
  Soup.Tag "html" []
    [Soup.Tag "td" [("class", "titleColumn")]
       [Soup.Text "first. ";
        Soup.Tag "a" [("href", "/title/tt0000001/")] [Soup.Text "Pilot"];
        Soup.Text " (MMVIII)"]].


(** *** The sentences of the specification about a title cell *)






(** Whether [c] occurs in [s]. *)
Fixpoint occurs (c : ascii) (s : string) : bool :=
  match s with
  | EmptyString => false
  | String a s' => Ascii.eqb a c || occurs c s'
  end.


(** A chart row whose title has a full stop. *)
Definition dotted_cell : Soup.node :=
  Soup.Tag "td" [("class", "titleColumn")]
    [Soup.Text " 5. ";
     Soup.Tag "a" [("href", "/title/tt4158110/")] [Soup.Text "Mr. Robot"];
     Soup.Text " ";
     Soup.Tag "span" [("class", "secondaryInfo")] [Soup.Text "(2015)"]].


(** ** Notions used in the further properties *)

(** The table row made of a listing row. *)
Definition entry_of (row : ListingRow) : SeriesEntry :=
  {| series_name := l_series_name row;
     series_rank := l_series_rank row;
     series_origin_year := l_series_origin_year row;
     series_link := l_series_link row;
     series_id := l_series_name row +:+ " (" +:+ l_series_origin_year row +:+ ")" |}.

(** A chart page whose markup has no title cell. *)
Definition restyled_chart : Soup.node :=
  Soup.Tag "html" []
    [Soup.Tag "body" []
       [Soup.Tag "li" [("class", "ipc-metadata-list-summary-item")]
          [Soup.Tag "a" [("href", "/title/tt0903747/")] [Soup.Text "1. Breaking Bad"]]]].

(** A chart page whose second title cell has no year. *)
Definition yearless_cell : Soup.node :=
  Soup.Tag "td" [("class", "titleColumn")]
    [Soup.Text "2. ";
     Soup.Tag "a" [("href", "/title/tt0185906/")] [Soup.Text "Band of Brothers"]].

Definition yearless_chart : Soup.node :=
  Soup.Tag "html" []
    [Soup.Tag "table" []
       [Soup.Tag "tr" [] [bb_cell]; Soup.Tag "tr" [] [yearless_cell];
        Soup.Tag "tr" [] [dotted_cell]]].

(** A detail page whose season selector has no label, and one whose label
    starts with a space. *)
Definition unlabelled_page : Soup.node :=
  Soup.Tag "html" [] [Soup.Tag "select" [("id", "browse-episodes-season")] []].

Definition spaced_label_page : Soup.node :=
  Soup.Tag "html" []
    [Soup.Tag "select" [("id", "browse-episodes-season"); ("aria-label", " 8 seasons")] []].

(** A detail page that announces no season at all. *)
Definition zero_seasons_page : Soup.node :=
  Soup.Tag "html" []
    [Soup.Tag "select" [("id", "browse-episodes-season"); ("aria-label", "0 seasons")] []].

(** A listing row whose rank and year are words, and a world that holds it. *)
Definition worded_entry : SeriesEntry :=
  {| series_name := "Pilot"; series_rank := "first";
     series_origin_year := "MMVIII"; series_link := "/title/tt0000001/";
     series_id := "Pilot (MMVIII)" |}.

Definition worded_world : world :=
  {| frames := {[ 0%nat := [worded_entry] ]}; trace := []; entropy := [] |}.

(** What one season iteration of [get_ratings] does to the outside. *)
Definition season_events (r : SeriesEntry) (season : Z) (supply : list Z) : list event :=
  [Slept (draw 5 15 supply);
   Requested (season_URL r season);
   Printed ("######## SEASON " +:+ Str.of_Z season +:+ " SCRAPED")].

(** What the season loop does to the outside, draw after draw. *)
Fixpoint season_trace (r : SeriesEntry) (l : list Z) (supply : list Z) : list event :=
  match l with
  | [] => []
  | season :: l' => season_events r season supply ++ season_trace r l' (tail supply)
  end.

(** The URLs requested, in order. *)
Fixpoint requests_of (evs : list event) : list string :=
  match evs with
  | [] => []
  | Requested URL :: rest => URL :: requests_of rest
  | _ :: rest => requests_of rest
  end.

(** Every request comes right after a sleep of 5 to 15 seconds. *)
Fixpoint polite (evs : list event) : bool :=
  match evs with
  | [] => true
  | ev :: rest =>
      match ev with
      | Requested _ => false
      | Printed _ => polite rest
      | Slept seconds =>
          match rest with
          | Requested _ :: rest' => (5 <=? seconds) && (seconds <=? 15) && polite rest'
          | _ => polite rest
          end
      end
  end.

(** Everything a successful [get_ratings] adds to the trace. *)
Definition ratings_trace (name : string) (r : SeriesEntry) (seasons : Z)
    (supply : list Z) (episodes : nat) : list event :=
  [Printed banner;
   Printed ("SCRAPING: " +:+ Str.upper name);
   Slept (draw 5 15 supply);
   Requested (detail_URL r);
   Printed ("##### TOTAL SEASONS: " +:+ Str.of_Z seasons);
   Printed "##### GETTING EPISODES..."]
  ++ season_trace r (arange 1 (seasons + 1)) (tail supply)
  ++ [Printed (Str.upper name +:+ " - TOTAL EPISODES: " +:+ Str.of_Z (Z.of_nat episodes));
      Printed banner].

(** A series of two seasons, one episode each. *)
Definition two_seasons_page : Soup.node :=
  Soup.Tag "html" []
    [Soup.Tag "select" [("id", "browse-episodes-season"); ("aria-label", "2 seasons")] []].

Definition two_seasons_session : session := fun URL =>
  if String.eqb URL "https://www.imdb.com/title/tt0903747/" then Ok two_seasons_page
  else if String.eqb URL "https://www.imdb.com/title/tt0903747/episodes?season=1"
  then Ok full_page
  else if String.eqb URL "https://www.imdb.com/title/tt0903747/episodes?season=2"
  then Ok (Soup.Tag "html" [] [bare_block])
  else Raise ConnectionError.

Definition two_seasons_world : world :=
  {| frames := {[ 0%nat := [bb_entry] ]}; trace := []; entropy := [0; 11; 27] |}.

(** An episode block whose rating is not a number. *)
Definition unrated_block : Soup.node :=
  Soup.Tag "div" [("class", "info")]
    [Soup.Tag "meta" [("itemprop", "episodeNumber"); ("content", "1")] [];
     Soup.Tag "span" [("class", "ipl-rating-star__rating")] [Soup.Text "n/a"]].

Definition unrated_session : session := fun URL =>
  if String.eqb URL "https://www.imdb.com/title/tt0903747/" then Ok plain_page
  else if String.eqb URL "https://www.imdb.com/title/tt0903747/episodes?season=1"
  then Ok (Soup.Tag "html" [] [Soup.Tag "body" [] [full_block; unrated_block]])
  else Raise ConnectionError.




(** * Properties *)

(** ** Running statements *)

Section Running.
Context {A B : Type}.
Implicit Types (m : M A) (f : A → M B) (w : world).

Lemma run_bind m f w :
  (m ≫= f) w = match m w with
               | (Ok a, w') => f a w'
               | (Raise e, w') => (Raise e, w')
               end.
Proof. reflexivity. Qed.

Lemma bind_Ok m f w a w' : m w = (Ok a, w') → (m ≫= f) w = f a w'.
Proof. intros H. rewrite run_bind, H. reflexivity. Qed.

Lemma bind_Raise m f w e w' : m w = (Raise e, w') → (m ≫= f) w = (Raise e, w').
Proof. intros H. rewrite run_bind, H. reflexivity. Qed.

Lemma bind_lift_Ok (r : res A) f w a : r = Ok a → (lift r ≫= f) w = f a w.
Proof. intros ->. reflexivity. Qed.

Lemma bind_lift_Raise (r : res A) f w e : r = Raise e → (lift r ≫= f) w = (Raise e, w).
Proof. intros ->. reflexivity. Qed.
End Running.

(** ** The DataFrame objects are only read *)

Section KeepsFrames.
Context {A B : Type}.

Lemma keeps_ret (a : A) : keeps_frames (mret a : M A).
Proof. intros w. reflexivity. Qed.

Lemma keeps_lift (r : res A) : keeps_frames (lift r).
Proof. intros w. reflexivity. Qed.

Lemma keeps_bind (m : M A) (f : A → M B) :
  keeps_frames m → (∀ a, keeps_frames (f a)) → keeps_frames (m ≫= f).
Proof.
  intros Hm Hf w. rewrite run_bind. specialize (Hm w).
  destruct (m w) as [[a|e] w']; simpl in *.
  - rewrite Hf. exact Hm.
  - exact Hm.
Qed.

Lemma keeps_try (m h : M A) (e : exn) :
  keeps_frames m → keeps_frames h → keeps_frames (try_exceptM m e h).
Proof.
  intros Hm Hh w. unfold try_exceptM. specialize (Hm w).
  destruct (m w) as [[a|e'] w']; simpl in *; [exact Hm|].
  destruct (decide (e' = e)); simpl; [rewrite Hh|]; exact Hm.
Qed.

Lemma keeps_local (x : option A) : keeps_frames (local x).
Proof. destruct x; intros w; reflexivity. Qed.

End KeepsFrames.

Lemma keeps_for_each {A S} (l : list A) (body : S → A → M S) (s : S) :
  (∀ s x, keeps_frames (body s x)) → keeps_frames (for_each l body s).
Proof.
  intros Hb. revert s. induction l as [|x l IH]; intros s; simpl.
  - apply keeps_ret.
  - apply keeps_bind; [apply Hb | exact IH].
Qed.

Lemma keeps_emit ev : keeps_frames (emit ev).
Proof. intros w. reflexivity. Qed.

Lemma keeps_randint a b : keeps_frames (randint a b).
Proof. intros w. reflexivity. Qed.

Lemma keeps_read_frame l : keeps_frames (read_frame l).
Proof. intros w. unfold read_frame. destruct (frames w !! l); reflexivity. Qed.

Lemma keeps_fetch s URL : keeps_frames (fetch s URL).
Proof. intros w. unfold fetch. rewrite run_bind. simpl. destruct (s URL); reflexivity. Qed.

Create HintDb keeps discriminated.
#[local] Hint Resolve keeps_ret keeps_lift keeps_try keeps_local keeps_emit
  keeps_randint keeps_read_frame keeps_fetch : keeps.
#[local] Hint Extern 1 (keeps_frames (print _)) => apply keeps_emit : keeps.
#[local] Hint Extern 1 (keeps_frames (sleep _)) => apply keeps_emit : keeps.
#[local] Hint Extern 2 (keeps_frames (_ ≫= _)) => apply keeps_bind; [|intros ?] : keeps.
#[local] Hint Extern 2 (keeps_frames (for_each _ _ _)) =>
  apply keeps_for_each; intros ? ? : keeps.
#[local] Hint Extern 3 (keeps_frames (match ?x with _ => _ end)) => destruct x : keeps.

Lemma keeps_lookup_link name top_list : keeps_frames (lookup_link name top_list).
Proof. unfold lookup_link. auto 10 with keeps. Qed.

Lemma keeps_lookup_column column name top_list :
  keeps_frames (lookup_column column name top_list).
Proof. unfold lookup_column. auto 10 with keeps. Qed.

Lemma keeps_get_last_season name top_list s :
  keeps_frames (get_last_season name top_list s).
Proof.
  unfold get_last_season.
  repeat (apply keeps_bind; [auto using keeps_lookup_link with keeps | intros ?]).
  auto with keeps.
Qed.

Lemma keeps_episode_row name top_list link seasons season episode :
  keeps_frames (episode_row name top_list link seasons season episode).
Proof.
  unfold episode_row.
  repeat (apply keeps_bind; [auto using keeps_lookup_column with keeps | intros ?]).
  auto with keeps.
Qed.

Lemma keeps_season_rows name top_list s link seasons df season :
  keeps_frames (season_rows name top_list s link seasons df season).
Proof.
  unfold season_rows.
  repeat (apply keeps_bind; [auto using keeps_episode_row with keeps | intros ?]).
  auto with keeps.
Qed.

Lemma keeps_get_ratings name top_list s :
  keeps_frames (get_ratings name top_list s).
Proof.
  unfold get_ratings.
  repeat (apply keeps_bind;
          [auto using keeps_lookup_link, keeps_get_last_season, keeps_season_rows
             with keeps | intros ?]).
  auto with keeps.
Qed.

(** ** The link lookup *)

Lemma item_singleton {A} (x : A) : item [x] = Ok x.
Proof. reflexivity. Qed.

Lemma item_Raise {A} (l : list A) : length l ≠ 1%nat → item l = Raise ValueError.
Proof. destruct l as [|x [|y l]]; simpl; intros H; congruence. Qed.

Lemma item_Ok_inv {A} (l : list A) (x : A) : item l = Ok x → l = [x].
Proof. destruct l as [|y [|z l]]; simpl; intros H; congruence. Qed.

Lemma lookup_link_found name top_list w t r :
  frames w !! top_list = Some t →
  select_name name t = [r] →
  lookup_link name top_list w = (Ok (Some (series_link r)), w).
Proof.
  intros Ht Hr. unfold lookup_link, try_exceptM, read_frame.
  rewrite run_bind, Ht, Hr. reflexivity.
Qed.

Lemma lookup_link_ambiguous name top_list w t :
  frames w !! top_list = Some t →
  length (select_name name t) ≠ 1%nat →
  lookup_link name top_list w = (Ok None, log (Printed (ambiguous_message name)) w).
Proof.
  intros Ht Hr. unfold lookup_link, try_exceptM, read_frame.
  rewrite run_bind, Ht.
  rewrite (bind_lift_Raise _ _ _ ValueError)
    by (apply item_Raise; rewrite length_fmap; exact Hr).
  reflexivity.
Qed.

Lemma lookup_column_found column name top_list w t r :
  frames w !! top_list = Some t →
  select_name name t = [r] →
  lookup_column column name top_list w = (Ok (column r), w).
Proof.
  intros Ht Hr. unfold lookup_column, read_frame.
  rewrite run_bind, Ht, Hr. reflexivity.
Qed.

(** ** [get_last_season], step by step *)

Lemma get_last_season_found name top_list s w t r :
  frames w !! top_list = Some t →
  select_name name t = [r] →
  get_last_season name top_list s w =
    let w1 := log (Requested (detail_URL r)) (started name w) in
    match s (detail_URL r) with
    | Raise e => (Raise e, w1)
    | Ok soup =>
        match season_count soup with
        | Ok n => (Ok n, log (Printed ("##### TOTAL SEASONS: " +:+ Str.of_Z n)) w1)
        | Raise e => (Raise e, w1)
        end
    end.
Proof.
  intros Ht Hr. unfold get_last_season.
  do 4 (rewrite run_bind; simpl).
  rewrite (bind_Ok _ _ _ _ _ (lookup_link_found name top_list (started name w) t r Ht Hr)).
  rewrite run_bind. simpl. unfold fetch. rewrite !run_bind. simpl.
  fold (detail_URL r). fold (started name w).
  destruct (s (detail_URL r)) as [soup|e]; simpl; [|reflexivity].
  unfold season_count.
  destruct (Soup.find q_season_select soup) as [sel|]; simpl; [|reflexivity].
  destruct (Soup.getitem sel "aria-label") as [label|e]; simpl; [|reflexivity].
  destruct (Str.index (Str.split " " label) 0) as [token|e]; simpl; [|reflexivity].
  destruct (Num.int_of_str token) as [n|e]; reflexivity.
Qed.

Lemma get_last_season_ambiguous name top_list s w t :
  frames w !! top_list = Some t →
  length (select_name name t) ≠ 1%nat →
  get_last_season name top_list s w =
    (Raise UnboundLocalError, log (Printed (ambiguous_message name)) (started name w)).
Proof.
  intros Ht Hr. unfold get_last_season.
  do 4 (rewrite run_bind; simpl).
  rewrite (bind_Ok _ _ _ _ _ (lookup_link_ambiguous name top_list (started name w) t Ht Hr)).
  reflexivity.
Qed.

(** ** [get_ratings], step by step *)

Lemma episode_description_eq episode :
  episode_description episode = Ok (description_cell episode).
Proof.
  unfold episode_description, description_cell.
  destruct (Soup.find q_description episode); reflexivity.
Qed.

Lemma episode_rating_eq episode : episode_rating episode = Ok (rating_cell episode).
Proof.
  unfold episode_rating, rating_cell.
  destruct (Soup.find q_rating episode); reflexivity.
Qed.

Lemma episode_total_votes_eq episode :
  episode_total_votes episode = Ok (votes_cell episode).
Proof.
  unfold episode_total_votes, votes_cell.
  destruct (Soup.find q_total_votes episode); reflexivity.
Qed.

Lemma episode_number_eq episode :
  episode_number episode = Ok (Node (Soup.find q_episodeNumber episode)).
Proof. reflexivity. Qed.

Lemma episode_row_found name top_list seasons season episode w t r :
  frames w !! top_list = Some t →
  select_name name t = [r] →
  episode_row name top_list (Some (series_link r)) seasons season episode w =
    (raw_episode name r seasons season episode, w).
Proof.
  intros Ht Hr. unfold episode_row.
  rewrite (bind_lift_Ok _ _ _ _ (episode_description_eq episode)).
  rewrite (bind_lift_Ok _ _ _ _ (episode_rating_eq episode)).
  rewrite (bind_lift_Ok _ _ _ _ (episode_total_votes_eq episode)).
  rewrite (bind_lift_Ok _ _ _ _ (episode_number_eq episode)).
  rewrite (bind_Ok _ _ _ _ _ (lookup_column_found series_rank name top_list w t r Ht Hr)).
  rewrite (bind_Ok _ _ _ _ _
             (lookup_column_found series_origin_year name top_list w t r Ht Hr)).
  unfold raw_episode. rewrite run_bind.
  destruct (subscript (Node (Soup.find q_episodeNumber episode)) "content");
    reflexivity.
Qed.

(** The loop over the blocks of one page adds the rows of the blocks, in
    order, and stops at the first block that raises. *)
Lemma episode_loop_found name top_list seasons season w t r :
  frames w !! top_list = Some t →
  select_name name t = [r] →
  ∀ (blocks : list Soup.node) (df : list RawEpisode),
    for_each blocks
      (fun df episode =>
         row ← episode_row name top_list (Some (series_link r)) seasons season episode;
         mret (df ++ [row]))
      df w
    = (rows ← mapM (raw_episode name r seasons season) blocks; mret (df ++ rows), w).
Proof.
  intros Ht Hr blocks. induction blocks as [|b blocks IH]; intros df; simpl.
  - rewrite app_nil_r. reflexivity.
  - rewrite !run_bind, (episode_row_found _ _ _ _ _ _ t r Ht Hr).
    destruct (raw_episode name r seasons season b) as [row|e]; simpl; [|reflexivity].
    rewrite IH.
    destruct (mapM (raw_episode name r seasons season) blocks) as [rows|e]; simpl.
    + rewrite <- app_assoc. reflexivity.
    + reflexivity.
Qed.

Lemma season_rows_found name top_list s seasons df season w t r :
  frames w !! top_list = Some t →
  select_name name t = [r] →
  season_rows name top_list s (Some (series_link r)) seasons df season w =
    let w1 := requested (season_URL r season) w in
    match s (season_URL r season) with
    | Raise e => (Raise e, w1)
    | Ok page =>
        match page_rows name r seasons season page with
        | Ok rows =>
            (Ok (df ++ rows),
             log (Printed ("######## SEASON " +:+ Str.of_Z season +:+ " SCRAPED")) w1)
        | Raise e => (Raise e, w1)
        end
    end.
Proof.
  intros Ht Hr. unfold season_rows.
  do 3 (rewrite run_bind; simpl).
  unfold fetch. rewrite !run_bind. simpl.
  fold (season_URL r season). fold (requested (season_URL r season) w).
  destruct (s (season_URL r season)) as [page|e]; simpl; [|reflexivity].
  rewrite run_bind.
  rewrite (episode_loop_found name top_list seasons season
             (requested (season_URL r season) w) t r Ht Hr).
  unfold page_rows.
  destruct (mapM _ _) as [rows|e]; reflexivity.
Qed.

Lemma get_ratings_found name top_list s w t r :
  frames w !! top_list = Some t →
  select_name name t = [r] →
  get_ratings name top_list s w =
    match get_last_season name top_list s w with
    | (Raise e, w1) => (Raise e, w1)
    | (Ok seasons, w1) =>
        match for_each (arange 1 (seasons + 1))
                (season_rows name top_list s (Some (series_link r)) seasons)
                [] (collecting w1) with
        | (Raise e, w2) => (Raise e, w2)
        | (Ok df, w2) => (astype df, collected name df w2)
        end
    end.
Proof.
  intros Ht Hr. unfold get_ratings.
  rewrite (bind_Ok _ _ _ _ _ (lookup_link_found name top_list w t r Ht Hr)).
  rewrite run_bind.
  destruct (get_last_season name top_list s w) as [[seasons|e] w1]; [|reflexivity].
  rewrite run_bind. simpl. rewrite run_bind. fold (collecting w1).
  destruct (for_each _ _ _ _) as [[df|e] w2]; reflexivity.
Qed.

Lemma get_ratings_ambiguous name top_list s w t :
  frames w !! top_list = Some t →
  length (select_name name t) ≠ 1%nat →
  get_ratings name top_list s w =
    (Raise UnboundLocalError,
     log (Printed (ambiguous_message name))
       (started name (log (Printed (ambiguous_message name)) w))).
Proof.
  intros Ht Hr. unfold get_ratings.
  rewrite (bind_Ok _ _ _ _ _ (lookup_link_ambiguous name top_list w t Ht Hr)).
  rewrite run_bind.
  rewrite (get_last_season_ambiguous name top_list s
             (log (Printed (ambiguous_message name)) w) t Ht Hr).
  reflexivity.
Qed.

(** The season loop, when it ends normally, has added the rows of every
    season page, season after season. *)
Lemma season_loop_Ok name top_list s seasons t r :
  select_name name t = [r] →
  ∀ (l : list Z) (df : list RawEpisode) (w : world) df' w',
    frames w !! top_list = Some t →
    for_each l (season_rows name top_list s (Some (series_link r)) seasons) df w
      = (Ok df', w') →
    ∃ chunks : list (list RawEpisode),
      Forall2 (fun season rows =>
                 ∃ page, s (season_URL r season) = Ok page
                         ∧ page_rows name r seasons season page = Ok rows)
              l chunks
      ∧ df' = df ++ concat chunks.
Proof.
  intros Hr l. induction l as [|season l IH]; intros df w df' w' Ht H; simpl in H.
  - inversion H; subst. exists []. split; [constructor | by rewrite app_nil_r].
  - rewrite run_bind, (season_rows_found _ _ _ _ _ _ _ t r Ht Hr) in H. simpl in H.
    destruct (s (season_URL r season)) as [page|e] eqn:Hpage; [|discriminate].
    destruct (page_rows name r seasons season page) as [rows|e] eqn:Hrows; [|discriminate].
    apply IH in H; [|exact Ht].
    destruct H as (chunks & Hall & ->).
    exists (rows :: chunks). split.
    + constructor; [exists page; auto | exact Hall].
    + simpl. by rewrite app_assoc.
Qed.

(** ** [mapM] over [res] *)

Lemma mapM_res_Forall2 {A B} (f : A → res B) (l : list A) (k : list B) :
  mapM f l = Ok k → Forall2 (fun x y => f x = Ok y) l k.
Proof.
  revert k. induction l as [|x l IH]; intros k H; simpl in H.
  - inversion H. constructor.
  - destruct (f x) as [y|e] eqn:Hx; simpl in H; [|discriminate].
    destruct (mapM f l) as [k'|e]; simpl in H; [|discriminate].
    inversion H; subst. constructor; auto.
Qed.

Lemma Forall2_mapM_res {A B} (f : A → res B) (l : list A) (k : list B) :
  Forall2 (fun x y => f x = Ok y) l k → mapM f l = Ok k.
Proof.
  induction 1 as [|x y l k Hx _ IH]; simpl; [reflexivity|].
  rewrite Hx. simpl. rewrite IH. reflexivity.
Qed.

Lemma Forall2_elem_r {A B} (P : A → B → Prop) (l : list A) (k : list B) (y : B) :
  Forall2 P l k → y ∈ k → ∃ x, x ∈ l ∧ P x y.
Proof.
  induction 1 as [|x y' l k Hxy _ IH]; intros Hy.
  - inversion Hy.
  - apply elem_of_cons in Hy. destruct Hy as [->|Hy].
    + exists x. split; [left | exact Hxy].
    + destruct (IH Hy) as (x' & Hx' & HP). exists x'. split; [by right | exact HP].
Qed.

Lemma Forall2_elem_l {A B} (P : A → B → Prop) (l : list A) (k : list B) (x : A) :
  Forall2 P l k → x ∈ l → ∃ y, y ∈ k ∧ P x y.
Proof.
  induction 1 as [|x' y l k Hxy _ IH]; intros Hx.
  - inversion Hx.
  - apply elem_of_cons in Hx. destruct Hx as [->|Hx].
    + exists y. split; [left | exact Hxy].
    + destruct (IH Hx) as (y' & Hy' & HP). exists y'. split; [by right | exact HP].
Qed.

(** ** What a table returned by [get_ratings] is made of *)

(** A returned table means: exactly one row of the listing has the name, the
    detail page gave the season count, every season page was fetched and
    every block of it gave a row, and all the rows converted. *)
Lemma get_ratings_Ok name top_list s w t rows w' :
  frames w !! top_list = Some t →
  get_ratings name top_list s w = (Ok rows, w') →
  ∃ r soup seasons (chunks : list (list RawEpisode)),
    select_name name t = [r]
    ∧ s (detail_URL r) = Ok soup
    ∧ season_count soup = Ok seasons
    ∧ Forall2 (fun season chunk =>
                 ∃ page, s (season_URL r season) = Ok page
                         ∧ page_rows name r seasons season page = Ok chunk)
              (arange 1 (seasons + 1)) chunks
    ∧ astype (concat chunks) = Ok rows.
Proof.
  intros Ht H.
  destruct (decide (length (select_name name t) = 1%nat)) as [Hlen|Hlen].
  - destruct (select_name name t) as [|r [|r' l]] eqn:Hr; try discriminate.
    rewrite (get_ratings_found _ _ _ _ t r Ht Hr) in H.
    rewrite (get_last_season_found _ _ _ _ t r Ht Hr) in H. simpl in H.
    destruct (s (detail_URL r)) as [soup|e] eqn:Hsoup; [|discriminate].
    destruct (season_count soup) as [seasons|e] eqn:Hcount; [|discriminate].
    destruct (for_each _ _ _ _) as [[df|e] w2] eqn:Hloop; [|discriminate].
    apply (season_loop_Ok name top_list s seasons t r Hr) in Hloop; [|exact Ht].
    destruct Hloop as (chunks & Hall & ->). simpl in H.
    exists r, soup, seasons, chunks. repeat split; auto. congruence.
  - rewrite (get_ratings_ambiguous _ _ _ _ t Ht Hlen) in H. discriminate.
Qed.

(** Every returned row is the conversion of the row of one block of one
    fetched season page. *)
Lemma get_ratings_rows name top_list s w t rows w' :
  frames w !! top_list = Some t →
  get_ratings name top_list s w = (Ok rows, w') →
  ∃ r seasons,
    select_name name t = [r]
    ∧ Forall (fun e =>
                ∃ season page episode x,
                  season ∈ arange 1 (seasons + 1)
                  ∧ s (season_URL r season) = Ok page
                  ∧ episode ∈ Soup.find_all q_info page
                  ∧ raw_episode name r seasons season episode = Ok x
                  ∧ astype_row x = Ok e)
             rows.
Proof.
  intros Ht H.
  destruct (get_ratings_Ok _ _ _ _ _ _ _ Ht H)
    as (r & soup & seasons & chunks & Hr & _ & _ & Hall & Hty).
  exists r, seasons. split; [exact Hr|].
  apply mapM_res_Forall2 in Hty.
  apply Forall_forall. intros e He.
  destruct (Forall2_elem_r _ _ _ _ Hty He) as (raw & Hraw & Hrawe).
  apply list_elem_of_In, in_concat in Hraw. destruct Hraw as (chunk & Hchunk & Hin).
  apply list_elem_of_In in Hchunk.
  destruct (Forall2_elem_r _ _ _ _ Hall Hchunk) as (season & Hseason & page & Hpage & Hrows).
  unfold page_rows in Hrows. apply mapM_res_Forall2 in Hrows.
  apply list_elem_of_In in Hin.
  destruct (Forall2_elem_r _ _ _ _ Hrows Hin) as (episode & Hep & Hx).
  exists season, page, episode, raw. auto.
Qed.

(** ** Facts about [split] *)

Lemma split_nonempty sep s : Str.split sep s ≠ [].
Proof.
  destruct s as [|c s]; simpl; [discriminate|].
  destruct (Ascii.eqb c sep); [discriminate|].
  destruct (Str.split sep s); discriminate.
Qed.

Lemma index_split_0 sep s : Str.index (Str.split sep s) 0 = Ok (hd "" (Str.split sep s)).
Proof.
  pose proof (split_nonempty sep s) as H.
  destruct (Str.split sep s); [congruence | reflexivity].
Qed.

(** * The properties of the specification *)

(** ** C10 *)

(** C10: neither [get_last_season] nor [get_ratings] modifies the listing
    table it is given. Whatever the world, the series name, the address of
    the table and the session, and whether the call returns or raises, the
    store of DataFrame objects (the table at [top_list] and any other) is
    the same after the call as before: both only read the table, and
    [get_ratings] gathers its rows in a table of its own. *)
Theorem top_list_not_modified (name : string) (top_list : loc) (s : session) (w : world) :
  frames (get_last_season name top_list s w).2 = frames w
  ∧ frames (get_ratings name top_list s w).2 = frames w.
Proof.
  split.
  - apply keeps_get_last_season.
  - apply keeps_get_ratings.
Qed.

(** ** C6 *)

(** The rows the lookup selects are those whose name is exactly the name
    asked for. *)
Lemma select_name_spec name t r :
  r ∈ select_name name t ↔ r ∈ t ∧ series_name r = name.
Proof.
  unfold select_name. rewrite !list_elem_of_In, filter_In.
  split; intros [H1 H2]; (split; [exact H1|]).
  - apply String.eqb_eq. exact H2.
  - apply String.eqb_eq. exact H2.
Qed.

(** C6: the link is looked up by exact equality of the name. When no row or
    more than one row of the listing has the name, the lookup's [ValueError]
    is caught: the message is printed and the lookup ends normally with
    [series_link] left unbound, so nothing is returned or raised at the
    lookup. Execution goes on: [get_last_season] fails only when it reads
    the unbound [series_link] to build the URL ([UnboundLocalError], before
    any request), and [get_ratings] goes on to call [get_last_season], which
    repeats the lookup and the message and fails in the same way. *)
Theorem ambiguous_name_not_stopped_at_lookup
    (name : string) (top_list : loc) (s : session) (w : world) (t : list SeriesEntry) :
  frames w !! top_list = Some t →
  length (select_name name t) ≠ 1%nat →
  (∀ r, r ∈ select_name name t ↔ r ∈ t ∧ series_name r = name)
  ∧ lookup_link name top_list w
      = (Ok None, log (Printed (ambiguous_message name)) w)
  ∧ get_last_season name top_list s w
      = (Raise UnboundLocalError,
         log (Printed (ambiguous_message name)) (started name w))
  ∧ trace (get_last_season name top_list s w).2
      = trace w ++ [Printed banner;
                    Printed ("SCRAPING: " +:+ Str.upper name);
                    Slept (draw 5 15 (entropy w));
                    Printed (ambiguous_message name)]
  ∧ get_ratings name top_list s w
      = (Raise UnboundLocalError,
         log (Printed (ambiguous_message name))
           (started name (log (Printed (ambiguous_message name)) w)))
  ∧ trace (get_ratings name top_list s w).2
      = trace w ++ [Printed (ambiguous_message name);
                    Printed banner;
                    Printed ("SCRAPING: " +:+ Str.upper name);
                    Slept (draw 5 15 (entropy w));
                    Printed (ambiguous_message name)].
Proof.
  intros Ht Hlen.
  split; [intros r; apply select_name_spec|].
  split; [exact (lookup_link_ambiguous name top_list w t Ht Hlen)|].
  split; [exact (get_last_season_ambiguous name top_list s w t Ht Hlen)|].
  split.
  { rewrite (get_last_season_ambiguous name top_list s w t Ht Hlen). simpl.
    rewrite <- !app_assoc. reflexivity. }
  split; [exact (get_ratings_ambiguous name top_list s w t Ht Hlen)|].
  rewrite (get_ratings_ambiguous name top_list s w t Ht Hlen). simpl.
  rewrite <- !app_assoc. reflexivity.
Qed.

Lemma ambiguous_name_not_stopped_at_lookup_witness :
  length (select_name "House of Cards" hoc_table) = 2%nat
  ∧ get_last_season "House of Cards" 0%nat offline hoc_world
      = (Raise UnboundLocalError,
         log (Printed (ambiguous_message "House of Cards"))
           (started "House of Cards" hoc_world))
  ∧ (get_ratings "House of Cards" 0%nat offline hoc_world).1 = Raise UnboundLocalError.
Proof.
  assert (Hlen : length (select_name "House of Cards" hoc_table) ≠ 1%nat)
    by (vm_compute; discriminate).
  destruct (ambiguous_name_not_stopped_at_lookup
              "House of Cards" 0%nat offline hoc_world hoc_table eq_refl Hlen)
    as (_ & _ & Hseason & _ & Hratings & _).
  split; [reflexivity|]. split; [exact Hseason|].
  rewrite Hratings. reflexivity.
Defined.

(** ** C1 *)

(** C1: [get_last_season] returns 1 when the fetched detail page has no
    [select] tag with the id [browse-episodes-season]. When the page has
    one, the outcome is that of [int] on the first space-separated token of
    its [aria-label]: the integer when the token is one (the label
    ["8 seasons"] gives 8), and the exception [int] raises otherwise. *)
Theorem get_last_season_count
    (name : string) (top_list : loc) (s : session) (w : world)
    (t : list SeriesEntry) (r : SeriesEntry) (soup : Soup.node) :
  frames w !! top_list = Some t →
  select_name name t = [r] →
  s (detail_URL r) = Ok soup →
  (Soup.find q_season_select soup = None →
     (get_last_season name top_list s w).1 = Ok 1)
  ∧ (∀ sel label,
       Soup.find q_season_select soup = Some sel →
       Soup.attr "aria-label" sel = Some label →
       (get_last_season name top_list s w).1
         = Num.int_of_str (hd "" (Str.split " " label)))
  ∧ (∀ sel,
       Soup.find q_season_select soup = Some sel →
       Soup.attr "aria-label" sel = Some "8 seasons" →
       (get_last_season name top_list s w).1 = Ok 8).
Proof.
  intros Ht Hr Hsoup.
  assert (Hrun : (get_last_season name top_list s w).1 = season_count soup).
  { rewrite (get_last_season_found name top_list s w t r Ht Hr). simpl.
    rewrite Hsoup. destruct (season_count soup); reflexivity. }
  assert (Hlabel : ∀ sel label,
             Soup.find q_season_select soup = Some sel →
             Soup.attr "aria-label" sel = Some label →
             season_count soup = Num.int_of_str (hd "" (Str.split " " label))).
  { intros sel label Hsel Hattr. unfold season_count, Soup.getitem.
    rewrite Hsel, Hattr. simpl. rewrite index_split_0. reflexivity. }
  rewrite Hrun. split; [|split].
  - intros Hnone. unfold season_count. rewrite Hnone. reflexivity.
  - exact Hlabel.
  - intros sel Hsel Hattr. rewrite (Hlabel sel _ Hsel Hattr). reflexivity.
Qed.

Lemma get_last_season_count_witness :
  (get_last_season "Breaking Bad" 0%nat eight_seasons_session bb_world).1 = Ok 8.
Proof.
  refine (proj2 (proj2 (get_last_season_count "Breaking Bad" 0%nat
                          eight_seasons_session bb_world [bb_entry] bb_entry
                          eight_seasons_page eq_refl eq_refl eq_refl))
            (Soup.Tag "select"
               [("id", "browse-episodes-season"); ("aria-label", "8 seasons")]
               [Soup.Tag "option" [("value", "1")] [Soup.Text "1"]])
            eq_refl eq_refl).
Defined.

Lemma mapM_cons_Raise {A B} (f : A → res B) (x : A) (l : list A) (e : exn) :
  f x = Raise e → mapM f (x :: l) = Raise e.
Proof. intros H. simpl. rewrite H. reflexivity. Qed.

Lemma raw_episode_missing name r seasons season episode :
  Soup.find q_episodeNumber episode = None →
  raw_episode name r seasons season episode = Raise TypeError.
Proof. intros H. unfold raw_episode. rewrite H. reflexivity. Qed.

(** ** Facts about [arange] *)

Lemma arange_cons a b : a < b → arange a b = a :: arange (a + 1) b.
Proof.
  intros Hab. unfold arange.
  replace (Z.to_nat (b - a)) with (S (Z.to_nat (b - (a + 1)))) by lia.
  simpl. rewrite Z.add_0_r. f_equal.
  rewrite <- fmap_S_seq, <- list_fmap_compose.
  apply list_fmap_ext. intros _ i _. simpl. lia.
Qed.

(** ** C3 *)

(** C3: in [get_ratings] the [try] around the episode-number lookup never
    takes its [except] branch: [number] always holds what [find] returned,
    a tag or [None], and never the -1 of that branch (which, being bound to
    [number] itself, could not be subscripted either). When a block has no
    episode-number node, the unguarded [number["content"]] raises
    [TypeError]: the row is not built, and a run whose pages contain such a
    block returns no table at all. When that block is the first block of the
    first season page, the run ends with exactly this [TypeError]. *)
Theorem missing_episode_number_is_fatal
    (name : string) (top_list : loc) (s : session) (w : world)
    (t : list SeriesEntry) (r : SeriesEntry) :
  frames w !! top_list = Some t →
  select_name name t = [r] →
  (∀ episode, episode_number episode = Ok (Node (Soup.find q_episodeNumber episode)))
  ∧ (∀ k, subscript (IntObj (-1)) k = Raise TypeError)
  ∧ (∀ seasons season episode,
       Soup.find q_episodeNumber episode = None →
       episode_row name top_list (Some (series_link r)) seasons season episode w
         = (Raise TypeError, w))
  ∧ (∀ soup seasons season page episode,
       s (detail_URL r) = Ok soup →
       season_count soup = Ok seasons →
       season ∈ arange 1 (seasons + 1) →
       s (season_URL r season) = Ok page →
       episode ∈ Soup.find_all q_info page →
       Soup.find q_episodeNumber episode = None →
       ∃ e, (get_ratings name top_list s w).1 = Raise e)
  ∧ (∀ soup seasons page episode rest,
       s (detail_URL r) = Ok soup →
       season_count soup = Ok seasons →
       1 ≤ seasons →
       s (season_URL r 1) = Ok page →
       Soup.find_all q_info page = episode :: rest →
       Soup.find q_episodeNumber episode = None →
       (get_ratings name top_list s w).1 = Raise TypeError).
Proof.
  intros Ht Hr.
  split; [exact episode_number_eq|].
  split; [reflexivity|].
  split.
  { intros seasons season episode Hnone.
    rewrite (episode_row_found _ _ _ _ _ _ t r Ht Hr).
    rewrite (raw_episode_missing _ _ _ _ _ Hnone). reflexivity. }
  split.
  - intros soup seasons season page episode Hsoup Hcount Hseason Hpage Hep Hnone.
    destruct (get_ratings name top_list s w) as [[rows|e] w'] eqn:Hrun;
      [exfalso | by exists e].
    destruct (get_ratings_Ok _ _ _ _ _ _ _ Ht Hrun)
      as (r' & soup' & seasons' & chunks & Hr' & Hsoup' & Hcount' & Hall & _).
    assert (r' = r) as -> by congruence.
    assert (soup' = soup) as -> by congruence.
    assert (seasons' = seasons) as -> by congruence.
    destruct (Forall2_elem_l _ _ _ _ Hall Hseason) as (chunk & _ & page' & Hpage' & Hrows).
    assert (page' = page) as -> by congruence.
    apply mapM_res_Forall2 in Hrows.
    destruct (Forall2_elem_l _ _ _ _ Hrows Hep) as (x & _ & Hx).
    rewrite (raw_episode_missing _ _ _ _ _ Hnone) in Hx. discriminate.
  - intros soup seasons page episode rest Hsoup Hcount Hge Hpage Hblocks Hnone.
    rewrite (get_ratings_found _ _ _ _ t r Ht Hr).
    rewrite (get_last_season_found _ _ _ _ t r Ht Hr). simpl.
    rewrite Hsoup, Hcount.
    rewrite (arange_cons 1 (seasons + 1)) by lia. simpl.
    rewrite run_bind.
    match goal with
    | |- context [season_rows _ _ _ _ _ _ _ ?w0] =>
        rewrite (season_rows_found name top_list s seasons [] 1 w0 t r Ht Hr)
    end.
    simpl. rewrite Hpage. unfold page_rows. rewrite Hblocks.
    rewrite (mapM_cons_Raise _ _ _ TypeError); [reflexivity|].
    apply raw_episode_missing. exact Hnone.
Qed.

Lemma missing_episode_number_is_fatal_witness :
  (get_ratings "Breaking Bad" 0%nat unnumbered_session bb_world).1 = Raise TypeError.
Proof.
  refine (proj2 (proj2 (proj2 (proj2
            (missing_episode_number_is_fatal "Breaking Bad" 0%nat unnumbered_session
               bb_world [bb_entry] bb_entry eq_refl eq_refl))))
            plain_page 1
            (Soup.Tag "html" [] [Soup.Tag "body" [] [unnumbered_block]])
            unnumbered_block [] eq_refl eq_refl _ eq_refl eq_refl eq_refl).
  discriminate.
Defined.

(** ** C4 *)

(** C4: each of the three optional fields of an episode block has its own
    fallback, decided by its own node alone: the description is the stripped
    text of the description node, or "N/A" without one; the rating is the
    text of the rating node, or -1 without one; the votes are the text of
    the vote-count node without parentheses and commas, or 0 without one.
    None of the three extractions raises, so a block that has its
    episode-number node always gives a row, whichever optional nodes are
    missing; and the fallback values pass the final conversion (-1 becomes
    the float64 -1.0, 0 stays 0). *)
Theorem optional_fields_fall_back
    (name : string) (top_list : loc) (w : world)
    (t : list SeriesEntry) (r : SeriesEntry) :
  frames w !! top_list = Some t →
  select_name name t = [r] →
  (∀ episode,
     episode_description episode = Ok (description_cell episode)
     ∧ episode_rating episode = Ok (rating_cell episode)
     ∧ episode_total_votes episode = Ok (votes_cell episode))
  ∧ (∀ episode,
       (Soup.find q_description episode = None → description_cell episode = "N/A")
       ∧ (Soup.find q_rating episode = None → rating_cell episode = PInt (-1))
       ∧ (Soup.find q_total_votes episode = None → votes_cell episode = PInt 0))
  ∧ (∀ seasons season episode n content,
       Soup.find q_episodeNumber episode = Some n →
       Soup.attr "content" n = Some content →
       episode_row name top_list (Some (series_link r)) seasons season episode w
         = (Ok {| r_series_name := name;
                  r_series_rank := series_rank r;
                  r_series_origin_year := series_origin_year r;
                  r_series_link := series_link r;
                  r_series_n_seasons := seasons;
                  r_season := season;
                  r_episode := content;
                  r_episode_rating := rating_cell episode;
                  r_episode_total_votes := votes_cell episode;
                  r_episode_description := description_cell episode |}, w))
  ∧ to_float64 (PInt (-1)) = Ok f_minus_one
  ∧ to_int64 (PInt 0) = Ok 0.
Proof.
  intros Ht Hr.
  split.
  { intros episode. split; [apply episode_description_eq|].
    split; [apply episode_rating_eq | apply episode_total_votes_eq]. }
  split.
  { intros episode. unfold description_cell, rating_cell, votes_cell.
    repeat split; intros ->; reflexivity. }
  split.
  { intros seasons season episode n content Hn Hcontent.
    rewrite (episode_row_found _ _ _ _ _ _ t r Ht Hr).
    unfold raw_episode, subscript, Soup.getitem. rewrite Hn, Hcontent. reflexivity. }
  split; reflexivity.
Qed.

Lemma optional_fields_fall_back_witness :
  episode_row "Breaking Bad" 0%nat (Some "/title/tt0903747/") 1 1 bare_block bb_world
    = (Ok {| r_series_name := "Breaking Bad";
             r_series_rank := "1";
             r_series_origin_year := "2008";
             r_series_link := "/title/tt0903747/";
             r_series_n_seasons := 1;
             r_season := 1;
             r_episode := "1";
             r_episode_rating := PInt (-1);
             r_episode_total_votes := PInt 0;
             r_episode_description := "N/A" |}, bb_world).
Proof.
  exact (proj1 (proj2 (proj2
           (optional_fields_fall_back "Breaking Bad" 0%nat bb_world [bb_entry] bb_entry
              eq_refl eq_refl)))
           1 1 bare_block
           (Soup.Tag "meta" [("itemprop", "episodeNumber"); ("content", "1")] [])
           "1" eq_refl eq_refl).
Defined.

(** A run over a season page whose one block has only its number: the row
    is there, with the three fallback values. *)
Example bare_block_run :
  (get_ratings "Breaking Bad" 0%nat bare_session bb_world).1
  = Ok [ {| e_series_name := "Breaking Bad";
            e_series_rank := 1;
            e_series_origin_year := 2008;
            e_series_link := "/title/tt0903747/";
            e_series_n_seasons := 1;
            e_season := 1;
            e_episode := 1;
            e_episode_rating := f_minus_one;
            e_episode_total_votes := 0;
            e_episode_description := "N/A" |} ].
Proof. reflexivity. Qed.

(** ** C7 *)

(** C7: for a series with a single season whose season page has one episode
    block, with the rating text "8.4", the vote text "(1,234)", a
    description and the episode-number content "3", [get_ratings] returns
    exactly one row: episode 3 (int64), rating 8.4 (float64), 1234 votes
    (int64), the stripped description, and the series fields of the listing
    row with rank and year converted to int64. *)
Theorem one_episode_scenario
    (name : string) (top_list : loc) (s : session) (w : world)
    (t : list SeriesEntry) (r : SeriesEntry) (rank year : Z)
    (detail page episode rating_node votes_node description_node number_node : Soup.node) :
  frames w !! top_list = Some t →
  select_name name t = [r] →
  str_to_int64 (series_rank r) = Ok rank →
  str_to_int64 (series_origin_year r) = Ok year →
  s (detail_URL r) = Ok detail →
  Soup.find q_season_select detail = None →
  s (season_URL r 1) = Ok page →
  Soup.find_all q_info page = [episode] →
  Soup.find q_rating episode = Some rating_node →
  Soup.text rating_node = "8.4" →
  Soup.find q_total_votes episode = Some votes_node →
  Soup.text votes_node = "(1,234)" →
  Soup.find q_description episode = Some description_node →
  Soup.find q_episodeNumber episode = Some number_node →
  Soup.attr "content" number_node = Some "3" →
  (get_ratings name top_list s w).1
    = Ok [ {| e_series_name := name;
              e_series_rank := rank;
              e_series_origin_year := year;
              e_series_link := series_link r;
              e_series_n_seasons := 1;
              e_season := 1;
              e_episode := 3;
              e_episode_rating := f_8_4;
              e_episode_total_votes := 1234;
              e_episode_description := Str.strip (Soup.text description_node) |} ].
Proof.
  intros Ht Hr Hrank Hyear Hdetail Hselect Hpage Hblocks
         Hrating Hrating_text Hvotes Hvotes_text Hdescription Hnumber Hcontent.
  assert (Hraw : raw_episode name r 1 1 episode
                 = Ok {| r_series_name := name;
                         r_series_rank := series_rank r;
                         r_series_origin_year := series_origin_year r;
                         r_series_link := series_link r;
                         r_series_n_seasons := 1;
                         r_season := 1;
                         r_episode := "3";
                         r_episode_rating := PStr "8.4";
                         r_episode_total_votes := PStr "1234";
                         r_episode_description := Str.strip (Soup.text description_node) |}).
  { unfold raw_episode, subscript, Soup.getitem, rating_cell, votes_cell, description_cell.
    rewrite Hnumber, Hcontent, Hrating, Hrating_text, Hvotes, Hvotes_text, Hdescription.
    reflexivity. }
  rewrite (get_ratings_found _ _ _ _ t r Ht Hr).
  rewrite (get_last_season_found _ _ _ _ t r Ht Hr). simpl.
  rewrite Hdetail. unfold season_count. rewrite Hselect.
  change (arange 1 (1 + 1)) with [1]. simpl.
  rewrite run_bind.
  match goal with
  | |- context [season_rows _ _ _ _ _ _ _ ?w0] =>
      rewrite (season_rows_found name top_list s 1 [] 1 w0 t r Ht Hr)
  end.
  simpl. rewrite Hpage. unfold page_rows. rewrite Hblocks.
  simpl. rewrite Hraw. simpl.
  unfold astype_row. simpl. rewrite Hrank, Hyear. reflexivity.
Qed.

Lemma one_episode_scenario_witness :
  (get_ratings "Breaking Bad" 0%nat full_session bb_world).1
    = Ok [ {| e_series_name := "Breaking Bad";
              e_series_rank := 1;
              e_series_origin_year := 2008;
              e_series_link := "/title/tt0903747/";
              e_series_n_seasons := 1;
              e_season := 1;
              e_episode := 3;
              e_episode_rating := f_8_4;
              e_episode_total_votes := 1234;
              e_episode_description := "A teacher turns to crime." |} ].
Proof.
  exact (one_episode_scenario "Breaking Bad" 0%nat full_session bb_world
           [bb_entry] bb_entry 1 2008 plain_page full_page full_block
           (Soup.Tag "span" [("class", "ipl-rating-star__rating")] [Soup.Text "8.4"])
           (Soup.Tag "span" [("class", "ipl-rating-star__total-votes")]
              [Soup.Text "(1,234)"])
           (Soup.Tag "div" [("class", "item_description")]
              [Soup.Text "  A teacher turns to crime. "])
           (Soup.Tag "meta" [("itemprop", "episodeNumber"); ("content", "3")] [])
           eq_refl eq_refl eq_refl eq_refl eq_refl eq_refl eq_refl eq_refl
           eq_refl eq_refl eq_refl eq_refl eq_refl eq_refl eq_refl).
Defined.

(** ** What the conversion of a row gives *)

Lemma raw_episode_Ok_inv name r seasons season episode x :
  raw_episode name r seasons season episode = Ok x →
  r_series_name x = name
  ∧ r_series_rank x = series_rank r
  ∧ r_series_origin_year x = series_origin_year r
  ∧ r_series_link x = series_link r
  ∧ r_series_n_seasons x = seasons
  ∧ r_season x = season
  ∧ subscript (Node (Soup.find q_episodeNumber episode)) "content" = Ok (r_episode x)
  ∧ r_episode_rating x = rating_cell episode
  ∧ r_episode_total_votes x = votes_cell episode
  ∧ r_episode_description x = description_cell episode.
Proof.
  unfold raw_episode.
  destruct (subscript _ _) as [content|e]; simpl; intros H; [|discriminate].
  inversion H; subst; simpl. repeat split; reflexivity.
Qed.

Lemma astype_row_Ok_inv x e :
  astype_row x = Ok e →
  e_series_name e = r_series_name x
  ∧ str_to_int64 (r_series_rank x) = Ok (e_series_rank e)
  ∧ str_to_int64 (r_series_origin_year x) = Ok (e_series_origin_year e)
  ∧ e_series_link e = r_series_link x
  ∧ int64_range (r_series_n_seasons x) = Ok (e_series_n_seasons e)
  ∧ int64_range (r_season x) = Ok (e_season e)
  ∧ str_to_int64 (r_episode x) = Ok (e_episode e)
  ∧ to_float64 (r_episode_rating x) = Ok (e_episode_rating e)
  ∧ to_int64 (r_episode_total_votes x) = Ok (e_episode_total_votes e)
  ∧ e_episode_description e = r_episode_description x.
Proof.
  unfold astype_row.
  destruct (str_to_int64 (r_series_rank x)) as [rank|?]; simpl; [|discriminate].
  destruct (str_to_int64 (r_series_origin_year x)) as [year|?]; simpl; [|discriminate].
  destruct (int64_range (r_series_n_seasons x)) as [n|?]; simpl; [|discriminate].
  destruct (int64_range (r_season x)) as [season|?]; simpl; [|discriminate].
  destruct (str_to_int64 (r_episode x)) as [episode|?]; simpl; [|discriminate].
  destruct (to_float64 (r_episode_rating x)) as [rating|?]; simpl; [|discriminate].
  destruct (to_int64 (r_episode_total_votes x)) as [votes|?]; simpl; [|discriminate].
  intros H. inversion H; subst; simpl. repeat split; reflexivity.
Qed.

(** ** C8 *)

(** C8 as stated fails: a block whose rating node reads "11.5", whose
    vote-count node reads "(-5)" and whose description node is blank gives a
    row with the rating 11.5, -5 votes and an empty description. *)
Lemma stated_bounds_counterexample :
  ∃ e,
    (get_ratings "Breaking Bad" 0%nat odd_session bb_world).1 = Ok [e]
    ∧ ¬ rating_in_bounds (e_episode_rating e)
    ∧ ¬ votes_in_bounds (e_episode_total_votes e)
    ∧ ¬ description_in_bounds (e_episode_description e)
    ∧ ¬ Forall within_stated_bounds [e].
Proof.
  eexists. split; [vm_compute; reflexivity|].
  assert (H1 : ¬ rating_in_bounds (S754_finite false 6473924464345088 (-49))).
  { intros [H|[_ H]]; [discriminate | vm_compute in H; discriminate]. }
  assert (H2 : ¬ votes_in_bounds (-5)).
  { intros [H|H]; [discriminate | lia]. }
  assert (H3 : ¬ description_in_bounds "").
  { intros [H|H]; [congruence | discriminate]. }
  repeat split; simpl; try assumption.
  intros H. apply Forall_cons in H. destruct H as [(H & _ & _) _]. exact (H1 H).
Qed.

(** C8, amended: no bound is checked. In every row of the table returned by
    [get_ratings], the rating is -1.0 when the block has no rating node and
    otherwise [float] of the node's text, whatever its value; the votes are
    0 when the block has no vote-count node and otherwise [int] of the
    node's text without parentheses and commas, negative or not; the
    description is "N/A" when the block has no description node and
    otherwise the node's stripped text, empty or not. *)
Theorem episode_values_unchecked
    (name : string) (top_list : loc) (s : session) (w : world)
    (t : list SeriesEntry) (rows : list EpisodeEntry) (w' : world) :
  frames w !! top_list = Some t →
  get_ratings name top_list s w = (Ok rows, w') →
  ∃ r,
    select_name name t = [r]
    ∧ Forall (fun e =>
        ∃ season page episode,
          s (season_URL r season) = Ok page
          ∧ episode ∈ Soup.find_all q_info page
          ∧ match Soup.find q_rating episode with
            | None => e_episode_rating e = f_minus_one
            | Some n => Num.float_of_str (Soup.text n) = Ok (e_episode_rating e)
            end
          ∧ match Soup.find q_total_votes episode with
            | None => e_episode_total_votes e = 0
            | Some n =>
                str_to_int64
                  (Str.replace "," ""
                     (Str.replace ")" "" (Str.replace "(" "" (Soup.text n))))
                = Ok (e_episode_total_votes e)
            end
          ∧ match Soup.find q_description episode with
            | None => e_episode_description e = "N/A"
            | Some n => e_episode_description e = Str.strip (Soup.text n)
            end)
        rows.
Proof.
  intros Ht Hrun.
  destruct (get_ratings_rows _ _ _ _ _ _ _ Ht Hrun) as (r & seasons & Hr & Hrows).
  exists r. split; [exact Hr|].
  eapply Forall_impl; [exact Hrows|]. clear Hrows.
  intros e (season & page & episode & x & _ & Hpage & Hep & Hraw & Hty).
  exists season, page, episode. split; [exact Hpage|]. split; [exact Hep|].
  apply raw_episode_Ok_inv in Hraw.
  destruct Hraw as (_ & _ & _ & _ & _ & _ & _ & Hrating & Hvotes & Hdescription).
  apply astype_row_Ok_inv in Hty.
  destruct Hty as (_ & _ & _ & _ & _ & _ & _ & Hfloat & Hint & Hstr).
  rewrite Hrating in Hfloat. rewrite Hvotes in Hint. rewrite Hdescription in Hstr.
  unfold rating_cell in Hfloat. unfold votes_cell in Hint. unfold description_cell in Hstr.
  split; [|split].
  - destruct (Soup.find q_rating episode); [exact Hfloat|].
    simpl in Hfloat. inversion Hfloat. reflexivity.
  - destruct (Soup.find q_total_votes episode); [exact Hint|].
    simpl in Hint. inversion Hint. reflexivity.
  - destruct (Soup.find q_description episode); exact Hstr.
Qed.

Lemma episode_values_unchecked_witness :
  ∃ r,
    select_name "Breaking Bad" [bb_entry] = [r]
    ∧ Forall (fun e =>
        ∃ season page episode,
          odd_session (season_URL r season) = Ok page
          ∧ episode ∈ Soup.find_all q_info page
          ∧ match Soup.find q_rating episode with
            | None => e_episode_rating e = f_minus_one
            | Some n => Num.float_of_str (Soup.text n) = Ok (e_episode_rating e)
            end
          ∧ match Soup.find q_total_votes episode with
            | None => e_episode_total_votes e = 0
            | Some n =>
                str_to_int64
                  (Str.replace "," ""
                     (Str.replace ")" "" (Str.replace "(" "" (Soup.text n))))
                = Ok (e_episode_total_votes e)
            end
          ∧ match Soup.find q_description episode with
            | None => e_episode_description e = "N/A"
            | Some n => e_episode_description e = Str.strip (Soup.text n)
            end)
        (match (get_ratings "Breaking Bad" 0%nat odd_session bb_world).1 with
         | Ok rows => rows
         | Raise _ => []
         end).
Proof.
  exact (episode_values_unchecked "Breaking Bad" 0%nat odd_session bb_world [bb_entry]
           _ (get_ratings "Breaking Bad" 0%nat odd_session bb_world).2
           eq_refl eq_refl).
Defined.

(** ** [get_top_list], step by step *)

Lemma listing_loop_eq (cells : list Soup.node) (top_list : list ListingRow) :
  listing_loop cells top_list
  = (rows ← mapM listing_row cells; mret (top_list ++ rows)).
Proof.
  revert top_list. induction cells as [|cell cells IH]; intros top_list; simpl.
  - rewrite app_nil_r. reflexivity.
  - destruct (listing_row cell) as [row|e]; simpl; [|reflexivity].
    rewrite IH. destruct (mapM listing_row cells) as [rows|e]; simpl; [|reflexivity].
    rewrite <- app_assoc. reflexivity.
Qed.

Lemma get_top_list_run (requests : session) (w : world) :
  get_top_list requests w =
    match requests top_URL with
    | Raise e => (Raise e, listed w)
    | Ok soup =>
        match listing_loop (Soup.find_all q_titleColumn soup) [] with
        | Ok rows => (Ok (add_series_id rows), listed w)
        | Raise e => (Raise e, listed w)
        end
    end.
Proof.
  unfold get_top_list, fetch. rewrite !run_bind. simpl.
  destruct (requests top_URL) as [soup|e]; simpl; [|reflexivity].
  destruct (listing_loop _ _) as [rows|e]; reflexivity.
Qed.

Lemma get_top_list_Ok (requests : session) (w : world) table w' :
  get_top_list requests w = (Ok table, w') →
  ∃ soup rows,
    requests top_URL = Ok soup
    ∧ listing_loop (Soup.find_all q_titleColumn soup) [] = Ok rows
    ∧ Forall2 (fun cell row => listing_row cell = Ok row)
        (Soup.find_all q_titleColumn soup) rows
    ∧ table = add_series_id rows.
Proof.
  rewrite get_top_list_run.
  destruct (requests top_URL) as [soup|e]; [|discriminate].
  destruct (listing_loop _ _) as [rows|e] eqn:Hloop; [|discriminate].
  intros H. inversion H; subst. exists soup, rows.
  repeat split; auto.
  rewrite listing_loop_eq in Hloop.
  destruct (mapM listing_row _) as [rows'|e] eqn:Hmap; [|discriminate].
  simpl in Hloop. inversion Hloop; subst.
  apply mapM_res_Forall2. exact Hmap.
Qed.

Lemma index_Ok_inv {A} (l : list A) (i : nat) (x : A) :
  Str.index l i = Ok x → l !! i = Some x.
Proof. unfold Str.index. destruct (l !! i); intros H; congruence. Qed.

(** What the fields of a listing row are. *)
Lemma listing_row_Ok_inv (ser : Soup.node) (row : ListingRow) :
  listing_row ser = Ok row →
  l_series_rank row = Str.strip (hd "" (Str.split "." (Soup.text ser)))
  ∧ (∃ segment,
       Str.split "." (Soup.text ser) !! 1%nat = Some segment
       ∧ l_series_name row = Str.strip (hd "" (Str.split "(" segment)))
  ∧ (∃ year,
       Str.split "(" (Soup.text ser) !! 1%nat = Some year
       ∧ l_series_origin_year row = Str.strip (Str.replace ")" "" year))
  ∧ subscript (Node (Soup.find q_a ser)) "href" = Ok (l_series_link row).
Proof.
  unfold listing_row. cbv zeta.
  remember (subscript (Node (Soup.find q_a ser)) "href") as link eqn:Hlink.
  rewrite index_split_0. simpl.
  destruct (Str.index (Str.split "." (Soup.text ser)) 1) as [segment|e] eqn:Hseg;
    simpl; [|discriminate].
  rewrite index_split_0. simpl.
  destruct (Str.index (Str.split "(" (Soup.text ser)) 1) as [year|e] eqn:Hyear;
    simpl; [|discriminate].
  destruct link as [href|e]; simpl; [|discriminate].
  intros H. inversion H; subst; simpl.
  split; [reflexivity|].
  split; [exists segment; split; [by apply index_Ok_inv | reflexivity]|].
  split; [exists year; split; [by apply index_Ok_inv | reflexivity]|].
  reflexivity.
Qed.

(** ** C5 *)

(** C5: in the table [get_top_list] returns, the [series_id] of every row is
    its [series_name], then " (", then its [series_origin_year], then ")".
    The column is added to the whole table at once, after the loop over the
    title cells has appended its last row. *)
Theorem series_id_of_every_row
    (requests : session) (w : world) (table : list SeriesEntry) (w' : world) :
  get_top_list requests w = (Ok table, w') →
  (∃ soup rows,
     requests top_URL = Ok soup
     ∧ listing_loop (Soup.find_all q_titleColumn soup) [] = Ok rows
     ∧ table = add_series_id rows)
  ∧ Forall (fun e =>
              series_id e = series_name e +:+ " (" +:+ series_origin_year e +:+ ")")
      table.
Proof.
  intros Hrun.
  destruct (get_top_list_Ok _ _ _ _ Hrun) as (soup & rows & Hsoup & Hloop & _ & ->).
  split; [exists soup, rows; auto|].
  unfold add_series_id. apply Forall_fmap, Forall_forall.
  intros row _. reflexivity.
Qed.

Lemma series_id_of_every_row_witness :
  Forall (fun e =>
            series_id e = series_name e +:+ " (" +:+ series_origin_year e +:+ ")")
    [bb_entry].
Proof.
  exact (proj2 (series_id_of_every_row bb_requests empty_world [bb_entry]
                  (listed empty_world) eq_refl)).
Defined.

(** ** C9 *)

(** [get_top_list] takes the rank and the year as text, whatever they are. *)
Example get_top_list_keeps_text :
  (get_top_list (fun _ => Ok worded_chart) empty_world).1
  = Ok [ {| series_name := "Pilot"; series_rank := "first";
            series_origin_year := "MMVIII"; series_link := "/title/tt0000001/";
            series_id := "Pilot (MMVIII)" |} ].
Proof. reflexivity. Qed.



(** ** Facts about strings *)

Lemma append_cons a (s t : string) : String a s +:+ t = String a (s +:+ t).
Proof. reflexivity. Qed.

Lemma append_nil_l (s : string) : "" +:+ s = s.
Proof. reflexivity. Qed.

Ltac string_simpl := rewrite ?append_cons, ?append_nil_l; simpl.







Lemma split_none c (s : string) : occurs c s = false → Str.split c s = [s].
Proof.
  induction s as [|a s IH]; simpl; intros H; [reflexivity|].
  apply orb_false_elim in H. destruct H as [Ha Hs].
  rewrite Ha, (IH Hs). reflexivity.
Qed.








(** ** C2 *)





(** * Further properties of the code *)

(** ** [get_top_list]: requests, rows and failures *)

Lemma split_second c (s : string) :
  occurs c s = true → ∃ x, Str.split c s !! 1%nat = Some x.
Proof.
  induction s as [|a s IH]; simpl; intros H; [discriminate|].
  destruct (Ascii.eqb a c) eqn:Ha.
  - pose proof (split_nonempty c s) as Hne.
    destruct (Str.split c s) as [|x l]; [congruence|]. by exists x.
  - simpl in H. destruct (IH H) as (x & Hx).
    destruct (Str.split c s) as [|y l]; [discriminate|]. by exists x.
Qed.

Lemma index_None {A} (l : list A) (i : nat) : l !! i = None → Str.index l i = Raise IndexError.
Proof. unfold Str.index. intros ->. reflexivity. Qed.

Lemma index_Some {A} (l : list A) (i : nat) (x : A) : l !! i = Some x → Str.index l i = Ok x.
Proof. unfold Str.index. intros ->. reflexivity. Qed.

(** The body of the loop of [get_top_list], outcome by outcome. *)
Lemma listing_row_eq (ser : Soup.node) :
  listing_row ser =
    match Str.split "." (Soup.text ser) !! 1%nat with
    | None => Raise IndexError
    | Some segment =>
        match Str.split "(" (Soup.text ser) !! 1%nat with
        | None => Raise IndexError
        | Some year =>
            match subscript (Node (Soup.find q_a ser)) "href" with
            | Raise e => Raise e
            | Ok href =>
                Ok {| l_series_name := Str.strip (hd "" (Str.split "(" segment));
                      l_series_rank := Str.strip (hd "" (Str.split "." (Soup.text ser)));
                      l_series_origin_year := Str.strip (Str.replace ")" "" year);
                      l_series_link := href |}
            end
        end
    end.
Proof.
  unfold listing_row. cbv zeta.
  remember (subscript (Node (Soup.find q_a ser)) "href") as link eqn:Hlink.
  rewrite index_split_0. simpl.
  destruct (Str.split "." (Soup.text ser) !! 1%nat) as [segment|] eqn:Hseg.
  - rewrite (index_Some _ _ _ Hseg). simpl. rewrite index_split_0. simpl.
    destruct (Str.split "(" (Soup.text ser) !! 1%nat) as [year|] eqn:Hyear.
    + rewrite (index_Some _ _ _ Hyear). simpl. destruct link; reflexivity.
    + rewrite (index_None _ _ Hyear). reflexivity.
  - rewrite (index_None _ _ Hseg). reflexivity.
Qed.

Lemma mapM_res_app_Raise {A B} (f : A → res B) (good : list A) (bad : A)
    (rest : list A) (e : exn) :
  Forall (fun x => ∃ y, f x = Ok y) good →
  f bad = Raise e →
  mapM f (good ++ bad :: rest) = Raise e.
Proof.
  intros Hgood Hbad. induction Hgood as [|x good (y & Hy) _ IH]; simpl.
  - rewrite Hbad. reflexivity.
  - rewrite Hy. simpl. rewrite IH. reflexivity.
Qed.

(** X1: [get_top_list] sends exactly one request, to the chart URL, and
    neither prints nor sleeps nor draws a random number, whether it returns
    or raises; an exception of the request itself is passed on unchanged. *)
Theorem get_top_list_one_request (requests : session) (w : world) :
  trace (get_top_list requests w).2 = trace w ++ [Requested top_URL]
  ∧ entropy (get_top_list requests w).2 = entropy w
  ∧ frames (get_top_list requests w).2 = frames w
  ∧ match requests top_URL with
    | Raise e => (get_top_list requests w).1 = Raise e
    | Ok _ => True
    end.
Proof.
  rewrite get_top_list_run.
  destruct (requests top_URL) as [soup|e]; simpl.
  - destruct (listing_loop _ _); simpl; auto.
  - auto.
Qed.

(** X2: when [get_top_list] returns a table, it has one row for each title
    cell of the page, in document order, and each row is the row of its
    cell with the [series_id] added. *)
Theorem get_top_list_rows_follow_cells
    (requests : session) (w : world) (table : list SeriesEntry) (w' : world) :
  get_top_list requests w = (Ok table, w') →
  ∃ soup,
    requests top_URL = Ok soup
    ∧ length table = length (Soup.find_all q_titleColumn soup)
    ∧ Forall2 (fun cell e => ∃ row, listing_row cell = Ok row ∧ e = entry_of row)
        (Soup.find_all q_titleColumn soup) table.
Proof.
  intros Hrun.
  destruct (get_top_list_Ok _ _ _ _ Hrun) as (soup & rows & Hsoup & _ & Hall & ->).
  exists soup. split; [exact Hsoup|].
  assert (H : Forall2 (fun cell e => ∃ row, listing_row cell = Ok row ∧ e = entry_of row)
                (Soup.find_all q_titleColumn soup) (add_series_id rows)).
  { unfold add_series_id. apply Forall2_fmap_r.
    eapply Forall2_impl; [exact Hall|].
    intros cell row Hrow. exists row. split; [exact Hrow | reflexivity]. }
  split; [symmetry; exact (Forall2_length _ _ _ H) | exact H].
Qed.

Lemma get_top_list_rows_follow_cells_witness :
  ∃ soup,
    bb_requests top_URL = Ok soup
    ∧ length [bb_entry] = length (Soup.find_all q_titleColumn soup)
    ∧ Forall2 (fun cell e => ∃ row, listing_row cell = Ok row ∧ e = entry_of row)
        (Soup.find_all q_titleColumn soup) [bb_entry].
Proof.
  exact (get_top_list_rows_follow_cells bb_requests empty_world [bb_entry]
           (listed empty_world) eq_refl).
Defined.

(** X3: a page without any title cell (as after a change of the site's
    markup) is no error for [get_top_list]: it returns the empty table. *)
Theorem get_top_list_without_cells (requests : session) (w : world) (soup : Soup.node) :
  requests top_URL = Ok soup →
  Soup.find_all q_titleColumn soup = [] →
  get_top_list requests w = (Ok [], listed w).
Proof.
  intros Hsoup Hcells. rewrite get_top_list_run, Hsoup, Hcells. reflexivity.
Qed.

Lemma get_top_list_without_cells_witness :
  get_top_list (fun _ => Ok restyled_chart) empty_world = (Ok [], listed empty_world).
Proof.
  exact (get_top_list_without_cells (fun _ => Ok restyled_chart) empty_world
           restyled_chart eq_refl eq_refl).
Defined.

(** X4: what a title cell of unexpected shape makes the loop body raise:
    [IndexError] when its text has no "." or no "(", [TypeError] when it has
    both but the cell has no anchor, [KeyError] when the anchor has no
    [href]. *)
Theorem listing_row_failures (ser : Soup.node) :
  (occurs "." (Soup.text ser) = false → listing_row ser = Raise IndexError)
  ∧ (occurs "(" (Soup.text ser) = false → listing_row ser = Raise IndexError)
  ∧ (occurs "." (Soup.text ser) = true →
     occurs "(" (Soup.text ser) = true →
     Soup.find q_a ser = None →
     listing_row ser = Raise TypeError)
  ∧ (∀ anchor,
       occurs "." (Soup.text ser) = true →
       occurs "(" (Soup.text ser) = true →
       Soup.find q_a ser = Some anchor →
       Soup.attr "href" anchor = None →
       listing_row ser = Raise KeyError).
Proof.
  rewrite listing_row_eq. split; [|split; [|split]].
  - intros H. rewrite (split_none _ _ H). reflexivity.
  - intros H. rewrite (split_none "(" _ H).
    destruct (Str.split "." (Soup.text ser) !! 1%nat); reflexivity.
  - intros Hdot Hparen Ha.
    destruct (split_second _ _ Hdot) as (x & ->).
    destruct (split_second _ _ Hparen) as (y & ->).
    rewrite Ha. reflexivity.
  - intros anchor Hdot Hparen Ha Hhref.
    destruct (split_second _ _ Hdot) as (x & ->).
    destruct (split_second _ _ Hparen) as (y & ->).
    rewrite Ha. unfold subscript, Soup.getitem. rewrite Hhref. reflexivity.
Qed.

Lemma listing_row_failures_witness : listing_row yearless_cell = Raise IndexError.
Proof.
  exact (proj1 (proj2 (listing_row_failures yearless_cell)) eq_refl).
Defined.

(** X5: one title cell that makes the loop body raise aborts the whole of
    [get_top_list]: the rows of the cells before it are lost, the cells
    after it are not looked at, and the exception of the first such cell is
    the outcome. *)
Theorem get_top_list_aborts_on_bad_cell
    (requests : session) (w : world) (soup : Soup.node)
    (good : list Soup.node) (bad : Soup.node) (rest : list Soup.node) (e : exn) :
  requests top_URL = Ok soup →
  Soup.find_all q_titleColumn soup = good ++ bad :: rest →
  Forall (fun cell => ∃ row, listing_row cell = Ok row) good →
  listing_row bad = Raise e →
  get_top_list requests w = (Raise e, listed w).
Proof.
  intros Hsoup Hcells Hgood Hbad.
  rewrite get_top_list_run, Hsoup, Hcells, listing_loop_eq.
  rewrite (mapM_res_app_Raise _ _ _ _ _ Hgood Hbad). reflexivity.
Qed.

Lemma get_top_list_aborts_on_bad_cell_witness :
  get_top_list (fun _ => Ok yearless_chart) empty_world
  = (Raise IndexError, listed empty_world).
Proof.
  refine (get_top_list_aborts_on_bad_cell (fun _ => Ok yearless_chart) empty_world
            yearless_chart [bb_cell] yearless_cell [dotted_cell] IndexError
            eq_refl eq_refl _ eq_refl).
  constructor; [|constructor].
  eexists. reflexivity.
Defined.

(** ** [get_top_list]: what the fields can contain *)

Lemma split_pieces_clean c (s : string) :
  Forall (fun p => occurs c p = false) (Str.split c s).
Proof.
  induction s as [|a s IH]; simpl.
  - repeat constructor.
  - destruct (Ascii.eqb a c) eqn:Ha.
    + constructor; [reflexivity | exact IH].
    + destruct (Str.split c s) as [|p ps]; [repeat constructor; simpl; by rewrite Ha|].
      inversion IH as [|? ? Hp Hps]; subst.
      constructor; [simpl; by rewrite Ha, Hp | exact Hps].
Qed.

(** The pieces of a split contain only characters of the text. *)
Lemma split_pieces_within c d (s : string) :
  occurs d s = false → Forall (fun p => occurs d p = false) (Str.split c s).
Proof.
  induction s as [|a s IH]; simpl; intros H.
  - repeat constructor.
  - apply orb_false_elim in H. destruct H as [Ha Hs]. specialize (IH Hs).
    destruct (Ascii.eqb a c).
    + constructor; [reflexivity | exact IH].
    + destruct (Str.split c s) as [|p ps]; [repeat constructor; simpl; by rewrite Ha|].
      inversion IH as [|? ? Hp Hps]; subst.
      constructor; [simpl; by rewrite Ha, Hp | exact Hps].
Qed.

Lemma Forall_hd_string (P : string → Prop) (l : list string) :
  P "" → Forall P l → P (hd "" l).
Proof. intros H0 Hl. destruct Hl; [exact H0 | assumption]. Qed.

Lemma Forall_lookup_string (P : string → Prop) (l : list string) (i : nat) (x : string) :
  Forall P l → l !! i = Some x → P x.
Proof. intros Hl Hx. exact (proj1 (Forall_lookup P l) Hl i x Hx). Qed.

Lemma occurs_lstrip c (s : string) : occurs c s = false → occurs c (Str.lstrip s) = false.
Proof.
  induction s as [|a s IH]; simpl; intros H; [reflexivity|].
  apply orb_false_elim in H. destruct H as [Ha Hs].
  destruct (Str.is_space a); [exact (IH Hs)|]. simpl. by rewrite Ha, Hs.
Qed.

Lemma occurs_rstrip c (s : string) : occurs c s = false → occurs c (Str.rstrip s) = false.
Proof.
  induction s as [|a s IH]; simpl; intros H; [reflexivity|].
  apply orb_false_elim in H. destruct H as [Ha Hs]. specialize (IH Hs).
  destruct (Str.rstrip s) as [|b r].
  - destruct (Str.is_space a); simpl; [reflexivity | by rewrite Ha].
  - simpl in *. by rewrite Ha, IH.
Qed.

Lemma occurs_strip c (s : string) : occurs c s = false → occurs c (Str.strip s) = false.
Proof. intros H. unfold Str.strip. by apply occurs_rstrip, occurs_lstrip. Qed.

Lemma occurs_replace_same c (s : string) : occurs c (Str.replace c "" s) = false.
Proof.
  induction s as [|a s IH]; simpl; [reflexivity|].
  destruct (Ascii.eqb a c) eqn:Ha; string_simpl; [exact IH | by rewrite Ha, IH].
Qed.

Lemma occurs_replace_other c d (s : string) :
  occurs d s = false → occurs d (Str.replace c "" s) = false.
Proof.
  induction s as [|a s IH]; simpl; intros H; [reflexivity|].
  apply orb_false_elim in H. destruct H as [Ha Hs].
  destruct (Ascii.eqb a c); string_simpl; [exact (IH Hs) | by rewrite Ha, (IH Hs)].
Qed.

(** The fields of the row of one cell never contain their delimiters. *)
Lemma listing_row_clean (ser : Soup.node) (row : ListingRow) :
  listing_row ser = Ok row →
  occurs "." (l_series_rank row) = false
  ∧ occurs "." (l_series_name row) = false
  ∧ occurs "(" (l_series_name row) = false
  ∧ occurs "(" (l_series_origin_year row) = false
  ∧ occurs ")" (l_series_origin_year row) = false.
Proof.
  intros Hrow.
  destruct (listing_row_Ok_inv _ _ Hrow)
    as (-> & (segment & Hseg & ->) & (year & Hyear & ->) & _).
  assert (Hsegment : occurs "." segment = false).
  { exact (Forall_lookup_string _ _ _ _ (split_pieces_clean "." _) Hseg). }
  assert (Hyr : occurs "(" year = false).
  { exact (Forall_lookup_string _ _ _ _ (split_pieces_clean "(" _) Hyear). }
  repeat split.
  - apply occurs_strip.
    exact (Forall_hd_string _ _ eq_refl (split_pieces_clean "." _)).
  - apply occurs_strip.
    exact (Forall_hd_string _ _ eq_refl (split_pieces_within "(" "." _ Hsegment)).
  - apply occurs_strip.
    exact (Forall_hd_string _ _ eq_refl (split_pieces_clean "(" _)).
  - apply occurs_strip, occurs_replace_other. exact Hyr.
  - apply occurs_strip, occurs_replace_same.
Qed.

(** X6: in every row of a table returned by [get_top_list], the rank has no
    ".", the name has neither "." nor "(", and the year has no parenthesis:
    the delimiters the text is cut at never end up in a field. *)
Theorem top_list_fields_without_delimiters
    (requests : session) (w : world) (table : list SeriesEntry) (w' : world) :
  get_top_list requests w = (Ok table, w') →
  Forall (fun e =>
            occurs "." (series_rank e) = false
            ∧ occurs "." (series_name e) = false
            ∧ occurs "(" (series_name e) = false
            ∧ occurs "(" (series_origin_year e) = false
            ∧ occurs ")" (series_origin_year e) = false)
    table.
Proof.
  intros Hrun.
  destruct (get_top_list_Ok _ _ _ _ Hrun) as (soup & rows & _ & _ & Hall & ->).
  unfold add_series_id. apply Forall_fmap, Forall_forall. intros row Hin. simpl.
  destruct (Forall2_elem_r _ _ _ _ Hall Hin) as (cell & _ & Hrow).
  exact (listing_row_clean _ _ Hrow).
Qed.

Lemma top_list_fields_without_delimiters_witness :
  Forall (fun e =>
            occurs "." (series_rank e) = false
            ∧ occurs "." (series_name e) = false
            ∧ occurs "(" (series_name e) = false
            ∧ occurs "(" (series_origin_year e) = false
            ∧ occurs ")" (series_origin_year e) = false)
    [bb_entry].
Proof.
  exact (top_list_fields_without_delimiters bb_requests empty_world [bb_entry]
           (listed empty_world) eq_refl).
Defined.

(** ** [get_top_list]: [series_id] tells name and year *)






(** ** [get_last_season]: failures and effects *)

Lemma draw_bounds (a b : Z) (supply : list Z) : a ≤ b → a ≤ draw a b supply ≤ b.
Proof.
  intros Hab. unfold draw. destruct supply as [|d ds]; [lia|].
  pose proof (Z.mod_pos_bound d (b - a + 1)). lia.
Qed.

(** X8: how [get_last_season] fails once the link is found. An exception of
    the request is passed on; a season selector without [aria-label] gives
    [KeyError]; a label that starts with a space gives [ValueError], since
    the label is cut at single spaces and its first piece is then empty. In
    each case the banner and the request are already out and the season
    total is not printed. *)
Theorem get_last_season_failures
    (name : string) (top_list : loc) (s : session) (w : world)
    (t : list SeriesEntry) (r : SeriesEntry) :
  frames w !! top_list = Some t →
  select_name name t = [r] →
  let w1 := log (Requested (detail_URL r)) (started name w) in
  (∀ e, s (detail_URL r) = Raise e →
        get_last_season name top_list s w = (Raise e, w1))
  ∧ (∀ soup sel,
       s (detail_URL r) = Ok soup →
       Soup.find q_season_select soup = Some sel →
       Soup.attr "aria-label" sel = None →
       get_last_season name top_list s w = (Raise KeyError, w1))
  ∧ (∀ soup sel rest,
       s (detail_URL r) = Ok soup →
       Soup.find q_season_select soup = Some sel →
       Soup.attr "aria-label" sel = Some (String " " rest) →
       get_last_season name top_list s w = (Raise ValueError, w1)).
Proof.
  intros Ht Hr w1. subst w1.
  rewrite (get_last_season_found name top_list s w t r Ht Hr). simpl.
  split; [|split].
  - intros e ->. reflexivity.
  - intros soup sel -> Hsel Hattr.
    unfold season_count, Soup.getitem. rewrite Hsel, Hattr. reflexivity.
  - intros soup sel rest -> Hsel Hattr.
    unfold season_count, Soup.getitem. rewrite Hsel, Hattr. reflexivity.
Qed.

Lemma get_last_season_failures_witness :
  (get_last_season "Breaking Bad" 0%nat (fun _ => Ok spaced_label_page) bb_world).1
  = Raise ValueError.
Proof.
  pose proof (proj2 (proj2
    (get_last_season_failures "Breaking Bad" 0%nat (fun _ => Ok spaced_label_page)
       bb_world [bb_entry] bb_entry eq_refl eq_refl))
    spaced_label_page
    (Soup.Tag "select"
       [("id", "browse-episodes-season"); ("aria-label", " 8 seasons")] [])
    "8 seasons" eq_refl eq_refl eq_refl) as H.
  rewrite H. reflexivity.
Defined.

(** X9: what a successful [get_last_season] does to the outside, in order:
    it prints the banner and the series name in capitals, sleeps once for 5
    to 15 seconds, sends one request, to the detail page of the series, and
    prints the season total it returns; it uses up one random draw. *)
Theorem get_last_season_trace
    (name : string) (top_list : loc) (s : session) (w : world)
    (t : list SeriesEntry) (r : SeriesEntry) (soup : Soup.node) (n : Z) :
  frames w !! top_list = Some t →
  select_name name t = [r] →
  s (detail_URL r) = Ok soup →
  season_count soup = Ok n →
  (get_last_season name top_list s w).1 = Ok n
  ∧ trace (get_last_season name top_list s w).2
    = trace w ++ [Printed banner;
                  Printed ("SCRAPING: " +:+ Str.upper name);
                  Slept (draw 5 15 (entropy w));
                  Requested (detail_URL r);
                  Printed ("##### TOTAL SEASONS: " +:+ Str.of_Z n)]
  ∧ 5 ≤ draw 5 15 (entropy w) ≤ 15
  ∧ entropy (get_last_season name top_list s w).2 = tail (entropy w).
Proof.
  intros Ht Hr Hsoup Hn.
  rewrite (get_last_season_found name top_list s w t r Ht Hr). simpl.
  rewrite Hsoup, Hn. simpl.
  split; [reflexivity|]. split; [by rewrite <- !app_assoc|].
  split; [apply draw_bounds; lia | reflexivity].
Qed.

Lemma get_last_season_trace_witness :
  trace (get_last_season "Breaking Bad" 0%nat eight_seasons_session bb_world).2
  = [Printed banner; Printed "SCRAPING: BREAKING BAD"; Slept 12;
     Requested "https://www.imdb.com/title/tt0903747/";
     Printed "##### TOTAL SEASONS: 8"].
Proof.
  exact (proj1 (proj2
    (get_last_season_trace "Breaking Bad" 0%nat eight_seasons_session bb_world
       [bb_entry] bb_entry eight_seasons_page 8 eq_refl eq_refl eq_refl eq_refl))).
Defined.

(** ** [get_ratings]: no season, no row *)

Lemma arange_empty (a b : Z) : b ≤ a → arange a b = [].
Proof. intros H. unfold arange. replace (Z.to_nat (b - a)) with 0%nat by lia. reflexivity. Qed.

(** X10: when the season total read from the detail page is zero or
    negative, [get_ratings] requests no season page and returns the empty
    table, whatever the listing row holds (even a rank or a year that is
    not a number, as no row is there to be converted). *)
Theorem get_ratings_without_seasons
    (name : string) (top_list : loc) (s : session) (w : world)
    (t : list SeriesEntry) (r : SeriesEntry) (soup : Soup.node) (n : Z) :
  frames w !! top_list = Some t →
  select_name name t = [r] →
  s (detail_URL r) = Ok soup →
  season_count soup = Ok n →
  n ≤ 0 →
  (get_ratings name top_list s w).1 = Ok []
  ∧ trace (get_ratings name top_list s w).2
    = trace w ++ [Printed banner;
                  Printed ("SCRAPING: " +:+ Str.upper name);
                  Slept (draw 5 15 (entropy w));
                  Requested (detail_URL r);
                  Printed ("##### TOTAL SEASONS: " +:+ Str.of_Z n);
                  Printed "##### GETTING EPISODES...";
                  Printed (Str.upper name +:+ " - TOTAL EPISODES: 0");
                  Printed banner].
Proof.
  intros Ht Hr Hsoup Hn Hle.
  rewrite (get_ratings_found _ _ _ _ t r Ht Hr).
  rewrite (get_last_season_found _ _ _ _ t r Ht Hr). simpl.
  rewrite Hsoup, Hn. rewrite (arange_empty 1 (n + 1)) by lia. simpl.
  split; [reflexivity | by rewrite <- !app_assoc].
Qed.

Lemma get_ratings_without_seasons_witness :
  (get_ratings "Pilot" 0%nat (fun _ => Ok zero_seasons_page) worded_world).1 = Ok [].
Proof.
  refine (proj1 (get_ratings_without_seasons "Pilot" 0%nat (fun _ => Ok zero_seasons_page)
                   worded_world [worded_entry] worded_entry zero_seasons_page 0
                   eq_refl eq_refl eq_refl eq_refl _)).
  discriminate.
Defined.

(** ** [get_ratings]: what a successful run does to the outside *)

Lemma season_loop_trace name top_list s seasons t r :
  select_name name t = [r] →
  ∀ (l : list Z) (df : list RawEpisode) (w : world) df' w',
    frames w !! top_list = Some t →
    for_each l (season_rows name top_list s (Some (series_link r)) seasons) df w
      = (Ok df', w') →
    trace w' = trace w ++ season_trace r l (entropy w).
Proof.
  intros Hr l. induction l as [|season l IH]; intros df w df' w' Ht H; simpl in H.
  - inversion H; subst. simpl. by rewrite app_nil_r.
  - rewrite run_bind, (season_rows_found _ _ _ _ _ _ _ t r Ht Hr) in H. simpl in H.
    destruct (s (season_URL r season)) as [page|e]; [|discriminate].
    destruct (page_rows name r seasons season page) as [rows|e]; [|discriminate].
    apply IH in H; [|exact Ht].
    rewrite H. simpl. unfold season_events. rewrite <- !app_assoc. reflexivity.
Qed.

Lemma mapM_res_length {A B} (f : A → res B) (l : list A) (k : list B) :
  mapM f l = Ok k → length k = length l.
Proof. intros H. symmetry. exact (Forall2_length _ _ _ (mapM_res_Forall2 _ _ _ H)). Qed.

Lemma get_ratings_trace name top_list s w t rows w' :
  frames w !! top_list = Some t →
  get_ratings name top_list s w = (Ok rows, w') →
  ∃ r soup seasons,
    select_name name t = [r]
    ∧ s (detail_URL r) = Ok soup
    ∧ season_count soup = Ok seasons
    ∧ trace w' = trace w ++ ratings_trace name r seasons (entropy w) (length rows).
Proof.
  intros Ht H.
  destruct (decide (length (select_name name t) = 1%nat)) as [Hlen|Hlen].
  - destruct (select_name name t) as [|r [|r' l]] eqn:Hr; try discriminate.
    rewrite (get_ratings_found _ _ _ _ t r Ht Hr) in H.
    rewrite (get_last_season_found _ _ _ _ t r Ht Hr) in H. simpl in H.
    destruct (s (detail_URL r)) as [soup|e] eqn:Hsoup; [|discriminate].
    destruct (season_count soup) as [seasons|e] eqn:Hcount; [|discriminate].
    destruct (for_each _ _ _ _) as [[df|e] w2] eqn:Hloop; [|discriminate].
    apply (season_loop_trace name top_list s seasons t r Hr) in Hloop; [|exact Ht].
    simpl in H. inversion H as [[Hty Hw']].
    exists r, soup, seasons. repeat split; auto.
    rewrite (mapM_res_length _ _ _ Hty).
    unfold collected, ratings_trace. simpl. rewrite Hloop. simpl.
    rewrite <- !app_assoc. reflexivity.
  - rewrite (get_ratings_ambiguous _ _ _ _ t Ht Hlen) in H. discriminate.
Qed.

Lemma requests_of_app (a b : list event) :
  requests_of (a ++ b) = requests_of a ++ requests_of b.
Proof.
  induction a as [|ev a IH]; simpl; [reflexivity|].
  destruct ev; simpl; rewrite IH; reflexivity.
Qed.

Lemma requests_of_season_trace r (l : list Z) (supply : list Z) :
  requests_of (season_trace r l supply) = season_URL r <$> l.
Proof.
  revert supply. induction l as [|season l IH]; intros supply; simpl; [reflexivity|].
  by rewrite IH.
Qed.

Lemma polite_season_trace r (l : list Z) (supply : list Z) (rest : list event) :
  polite (season_trace r l supply ++ rest) = polite rest.
Proof.
  revert supply. induction l as [|season l IH]; intros supply; [reflexivity|].
  cbn [season_trace season_events app polite].
  pose proof (draw_bounds 5 15 supply ltac:(lia)) as [H1 H2].
  rewrite (proj2 (Z.leb_le _ _) H1), (proj2 (Z.leb_le _ _) H2). simpl.
  apply IH.
Qed.

(** X11: everything a successful [get_ratings] prints, sleeps and requests,
    in order: the banner, the series name, a sleep, the request of the
    detail page, the season total and the start message; then for each
    season from 1 up a sleep, the request of the season page and the
    season's message; at last the number of episodes, which is the number
    of rows returned, and the banner. *)
Theorem get_ratings_full_trace
    (name : string) (top_list : loc) (s : session) (w : world)
    (t : list SeriesEntry) (rows : list EpisodeEntry) (w' : world) :
  frames w !! top_list = Some t →
  get_ratings name top_list s w = (Ok rows, w') →
  ∃ r soup seasons,
    select_name name t = [r]
    ∧ s (detail_URL r) = Ok soup
    ∧ season_count soup = Ok seasons
    ∧ trace w' = trace w ++ ratings_trace name r seasons (entropy w) (length rows).
Proof. exact (get_ratings_trace name top_list s w t rows w'). Qed.

Lemma get_ratings_full_trace_witness :
  ∃ r soup seasons,
    select_name "Breaking Bad" [bb_entry] = [r]
    ∧ two_seasons_session (detail_URL r) = Ok soup
    ∧ season_count soup = Ok seasons
    ∧ trace (get_ratings "Breaking Bad" 0%nat two_seasons_session two_seasons_world).2
      = trace two_seasons_world
        ++ ratings_trace "Breaking Bad" r seasons (entropy two_seasons_world)
             (length (match (get_ratings "Breaking Bad" 0%nat two_seasons_session
                               two_seasons_world).1 with
                      | Ok rows => rows
                      | Raise _ => []
                      end)).
Proof.
  exact (get_ratings_full_trace "Breaking Bad" 0%nat two_seasons_session
           two_seasons_world [bb_entry] _
           (get_ratings "Breaking Bad" 0%nat two_seasons_session two_seasons_world).2
           eq_refl eq_refl).
Defined.

(** X12: a successful [get_ratings] sends one request for the detail page
    and then one for each season, from season 1 upwards: as many requests
    as there are seasons, plus one, and no other. *)
Theorem get_ratings_requests
    (name : string) (top_list : loc) (s : session) (w : world)
    (t : list SeriesEntry) (rows : list EpisodeEntry) (w' : world) :
  frames w !! top_list = Some t →
  get_ratings name top_list s w = (Ok rows, w') →
  ∃ r soup seasons,
    select_name name t = [r]
    ∧ s (detail_URL r) = Ok soup
    ∧ season_count soup = Ok seasons
    ∧ requests_of (trace w')
      = requests_of (trace w)
        ++ detail_URL r :: (season_URL r <$> arange 1 (seasons + 1)).
Proof.
  intros Ht Hrun.
  destruct (get_ratings_trace _ _ _ _ _ _ _ Ht Hrun)
    as (r & soup & seasons & Hr & Hsoup & Hcount & ->).
  exists r, soup, seasons. repeat split; auto.
  unfold ratings_trace.
  rewrite !requests_of_app, requests_of_season_trace. simpl.
  by rewrite app_nil_r.
Qed.

Lemma get_ratings_requests_witness :
  ∃ r soup seasons,
    select_name "Breaking Bad" [bb_entry] = [r]
    ∧ two_seasons_session (detail_URL r) = Ok soup
    ∧ season_count soup = Ok seasons
    ∧ requests_of
        (trace (get_ratings "Breaking Bad" 0%nat two_seasons_session
                  two_seasons_world).2)
      = requests_of (trace two_seasons_world)
        ++ detail_URL r :: (season_URL r <$> arange 1 (seasons + 1)).
Proof.
  exact (get_ratings_requests "Breaking Bad" 0%nat two_seasons_session
           two_seasons_world [bb_entry] _
           (get_ratings "Breaking Bad" 0%nat two_seasons_session two_seasons_world).2
           eq_refl eq_refl).
Defined.

(** X13: in a successful [get_ratings], every request comes right after a
    sleep of 5 to 15 seconds: no page is fetched without that pause. *)
Theorem get_ratings_sleeps_before_requests
    (name : string) (top_list : loc) (s : session) (w : world)
    (t : list SeriesEntry) (rows : list EpisodeEntry) (w' : world) :
  frames w !! top_list = Some t →
  get_ratings name top_list s w = (Ok rows, w') →
  ∃ added, trace w' = trace w ++ added ∧ polite added = true.
Proof.
  intros Ht Hrun.
  destruct (get_ratings_trace _ _ _ _ _ _ _ Ht Hrun)
    as (r & soup & seasons & Hr & Hsoup & Hcount & ->).
  eexists. split; [reflexivity|].
  unfold ratings_trace. cbn [app polite].
  pose proof (draw_bounds 5 15 (entropy w) ltac:(lia)) as [H1 H2].
  rewrite (proj2 (Z.leb_le _ _) H1), (proj2 (Z.leb_le _ _) H2). simpl.
  rewrite polite_season_trace. reflexivity.
Qed.

Lemma get_ratings_sleeps_before_requests_witness :
  ∃ added,
    trace (get_ratings "Breaking Bad" 0%nat two_seasons_session two_seasons_world).2
    = trace two_seasons_world ++ added
    ∧ polite added = true.
Proof.
  exact (get_ratings_sleeps_before_requests "Breaking Bad" 0%nat two_seasons_session
           two_seasons_world [bb_entry] _
           (get_ratings "Breaking Bad" 0%nat two_seasons_session two_seasons_world).2
           eq_refl eq_refl).
Defined.

(** ** [get_ratings]: the rows of a returned table *)

Lemma int64_range_Ok (n m : Z) : int64_range n = Ok m → m = n.
Proof. unfold int64_range. destruct (_ && _); intros H; congruence. Qed.

Lemma elem_of_arange (a b x : Z) : x ∈ arange a b → a ≤ x < b.
Proof.
  unfold arange. intros H. apply list_elem_of_fmap in H.
  destruct H as (i & -> & Hi). apply elem_of_seq in Hi. lia.
Qed.

(** X14: every row of a table returned by [get_ratings] carries the series
    name asked for, the link of the one listing row with that name, the
    season total read from the detail page, and a season number between 1
    and that total. *)
Theorem get_ratings_row_fields
    (name : string) (top_list : loc) (s : session) (w : world)
    (t : list SeriesEntry) (rows : list EpisodeEntry) (w' : world) :
  frames w !! top_list = Some t →
  get_ratings name top_list s w = (Ok rows, w') →
  ∃ r soup seasons,
    select_name name t = [r]
    ∧ s (detail_URL r) = Ok soup
    ∧ season_count soup = Ok seasons
    ∧ Forall (fun e =>
                e_series_name e = name
                ∧ e_series_link e = series_link r
                ∧ e_series_n_seasons e = seasons
                ∧ 1 ≤ e_season e ≤ seasons)
        rows.
Proof.
  intros Ht Hrun.
  destruct (get_ratings_Ok _ _ _ _ _ _ _ Ht Hrun)
    as (r & soup & seasons & chunks & Hr & Hsoup & Hcount & Hall & Hty).
  exists r, soup, seasons. repeat split; auto.
  apply mapM_res_Forall2 in Hty.
  apply Forall_forall. intros e He.
  destruct (Forall2_elem_r _ _ _ _ Hty He) as (raw & Hraw & Hrawe).
  apply list_elem_of_In, in_concat in Hraw. destruct Hraw as (chunk & Hchunk & Hin).
  apply list_elem_of_In in Hchunk.
  destruct (Forall2_elem_r _ _ _ _ Hall Hchunk) as (season & Hseason & page & _ & Hrows).
  unfold page_rows in Hrows. apply mapM_res_Forall2 in Hrows.
  apply list_elem_of_In in Hin.
  destruct (Forall2_elem_r _ _ _ _ Hrows Hin) as (episode & _ & Hx).
  apply raw_episode_Ok_inv in Hx.
  destruct Hx as (Hn & _ & _ & Hl & Hs & Hse & _).
  apply astype_row_Ok_inv in Hrawe.
  destruct Hrawe as (Hn' & _ & _ & Hl' & Hs' & Hse' & _).
  apply int64_range_Ok in Hs', Hse'. apply elem_of_arange in Hseason.
  rewrite Hn', Hl', Hs', Hse', Hn, Hl, Hs, Hse. repeat split; lia.
Qed.

Lemma get_ratings_row_fields_witness :
  ∃ r soup seasons,
    select_name "Breaking Bad" [bb_entry] = [r]
    ∧ two_seasons_session (detail_URL r) = Ok soup
    ∧ season_count soup = Ok seasons
    ∧ Forall (fun e =>
                e_series_name e = "Breaking Bad"
                ∧ e_series_link e = series_link r
                ∧ e_series_n_seasons e = seasons
                ∧ 1 ≤ e_season e ≤ seasons)
        (match (get_ratings "Breaking Bad" 0%nat two_seasons_session
                  two_seasons_world).1 with
         | Ok rows => rows
         | Raise _ => []
         end).
Proof.
  exact (get_ratings_row_fields "Breaking Bad" 0%nat two_seasons_session
           two_seasons_world [bb_entry] _
           (get_ratings "Breaking Bad" 0%nat two_seasons_session two_seasons_world).2
           eq_refl eq_refl).
Defined.

Lemma fmap_constant {A B} (f : A → B) (v : B) (l : list A) :
  Forall (fun x => f x = v) l → f <$> l = replicate (length l) v.
Proof. induction 1 as [|x l Hx _ IH]; csimpl; [reflexivity | by rewrite Hx, IH]. Qed.

Lemma Forall2_fmap_eq {A B C} (f : A → C) (g : B → C) (l : list A) (k : list B) :
  Forall2 (fun x y => f x = g y) l k → f <$> l = g <$> k.
Proof. induction 1 as [|x y l k Hxy _ IH]; csimpl; [reflexivity | by rewrite Hxy, IH]. Qed.

Lemma page_rows_seasons name r seasons season page chunk :
  page_rows name r seasons season page = Ok chunk →
  r_season <$> chunk = replicate (length (Soup.find_all q_info page)) season.
Proof.
  unfold page_rows. intros H.
  rewrite <- (mapM_res_length _ _ _ H).
  apply fmap_constant, Forall_forall. intros x Hx.
  apply mapM_res_Forall2 in H.
  destruct (Forall2_elem_r _ _ _ _ H Hx) as (episode & _ & Hraw).
  apply raw_episode_Ok_inv in Hraw. tauto.
Qed.

Lemma chunks_by_season name r s seasons (l : list Z) (chunks : list (list RawEpisode)) :
  Forall2 (fun season chunk =>
             ∃ page, s (season_URL r season) = Ok page
                     ∧ page_rows name r seasons season page = Ok chunk)
    l chunks →
  ∃ pages,
    Forall2 (fun season page => s (season_URL r season) = Ok page) l pages
    ∧ r_season <$> concat chunks
      = concat (zip_with (fun season page =>
                            replicate (length (Soup.find_all q_info page)) season)
                  l pages).
Proof.
  induction 1 as [|season chunk l chunks (page & Hpage & Hrows) _ (pages & Hpages & IH)].
  - exists []. split; [constructor | reflexivity].
  - exists (page :: pages). split; [by constructor|].
    simpl. rewrite fmap_app, IH, (page_rows_seasons _ _ _ _ _ _ Hrows). reflexivity.
Qed.

(** X15: the rows of a returned table come season by season, season 1
    first, and each fetched season page gives as many rows as it has
    episode blocks, so the table has one row for each block of the season
    pages. *)
Theorem get_ratings_rows_by_season
    (name : string) (top_list : loc) (s : session) (w : world)
    (t : list SeriesEntry) (rows : list EpisodeEntry) (w' : world) :
  frames w !! top_list = Some t →
  get_ratings name top_list s w = (Ok rows, w') →
  ∃ r soup seasons pages,
    select_name name t = [r]
    ∧ s (detail_URL r) = Ok soup
    ∧ season_count soup = Ok seasons
    ∧ Forall2 (fun season page => s (season_URL r season) = Ok page)
        (arange 1 (seasons + 1)) pages
    ∧ e_season <$> rows
      = concat (zip_with (fun season page =>
                            replicate (length (Soup.find_all q_info page)) season)
                  (arange 1 (seasons + 1)) pages).
Proof.
  intros Ht Hrun.
  destruct (get_ratings_Ok _ _ _ _ _ _ _ Ht Hrun)
    as (r & soup & seasons & chunks & Hr & Hsoup & Hcount & Hall & Hty).
  destruct (chunks_by_season _ _ _ _ _ _ Hall) as (pages & Hpages & Hseasons).
  exists r, soup, seasons, pages. repeat split; auto.
  rewrite <- Hseasons. symmetry.
  apply Forall2_fmap_eq.
  eapply Forall2_impl; [exact (mapM_res_Forall2 _ _ _ Hty)|].
  intros x e Hxe. apply astype_row_Ok_inv in Hxe.
  destruct Hxe as (_ & _ & _ & _ & _ & Hse & _).
  apply int64_range_Ok in Hse. congruence.
Qed.

Lemma get_ratings_rows_by_season_witness :
  ∃ r soup seasons pages,
    select_name "Breaking Bad" [bb_entry] = [r]
    ∧ two_seasons_session (detail_URL r) = Ok soup
    ∧ season_count soup = Ok seasons
    ∧ Forall2 (fun season page => two_seasons_session (season_URL r season) = Ok page)
        (arange 1 (seasons + 1)) pages
    ∧ e_season <$> (match (get_ratings "Breaking Bad" 0%nat two_seasons_session
                             two_seasons_world).1 with
                    | Ok rows => rows
                    | Raise _ => []
                    end)
      = concat (zip_with (fun season page =>
                            replicate (length (Soup.find_all q_info page)) season)
                  (arange 1 (seasons + 1)) pages).
Proof.
  exact (get_ratings_rows_by_season "Breaking Bad" 0%nat two_seasons_session
           two_seasons_world [bb_entry] _
           (get_ratings "Breaking Bad" 0%nat two_seasons_session two_seasons_world).2
           eq_refl eq_refl).
Defined.

(** X16: the final conversion is all or nothing. If the row of one episode
    block of one fetched season page cannot be converted (a rating that is
    no number, say), [get_ratings] returns no table, although every page
    was fetched and every row built. *)
Theorem get_ratings_conversion_is_all_or_nothing
    (name : string) (top_list : loc) (s : session) (w : world)
    (t : list SeriesEntry) (r : SeriesEntry) (soup : Soup.node) (seasons season : Z)
    (page episode : Soup.node) (x : RawEpisode) (e : exn) :
  frames w !! top_list = Some t →
  select_name name t = [r] →
  s (detail_URL r) = Ok soup →
  season_count soup = Ok seasons →
  season ∈ arange 1 (seasons + 1) →
  s (season_URL r season) = Ok page →
  episode ∈ Soup.find_all q_info page →
  raw_episode name r seasons season episode = Ok x →
  astype_row x = Raise e →
  ∃ e', (get_ratings name top_list s w).1 = Raise e'.
Proof.
  intros Ht Hr Hsoup Hcount Hseason Hpage Hep Hraw Hbad.
  destruct (get_ratings name top_list s w) as [[rows|e'] w'] eqn:Hrun;
    [exfalso | by exists e'].
  destruct (get_ratings_Ok _ _ _ _ _ _ _ Ht Hrun)
    as (r' & soup' & seasons' & chunks & Hr' & Hsoup' & Hcount' & Hall & Hty).
  assert (r' = r) as -> by congruence.
  assert (soup' = soup) as -> by congruence.
  assert (seasons' = seasons) as -> by congruence.
  destruct (Forall2_elem_l _ _ _ _ Hall Hseason) as (chunk & Hchunk & page' & Hpage' & Hrows).
  assert (page' = page) as -> by congruence.
  apply mapM_res_Forall2 in Hrows.
  destruct (Forall2_elem_l _ _ _ _ Hrows Hep) as (x' & Hx' & Hraw').
  assert (x' = x) as -> by congruence.
  assert (Hin : x ∈ concat chunks).
  { apply list_elem_of_In, in_concat. exists chunk.
    split; by apply list_elem_of_In. }
  apply mapM_res_Forall2 in Hty.
  destruct (Forall2_elem_l _ _ _ _ Hty Hin) as (row & _ & Hrow).
  congruence.
Qed.

Lemma get_ratings_conversion_is_all_or_nothing_witness :
  ∃ e', (get_ratings "Breaking Bad" 0%nat unrated_session bb_world).1 = Raise e'.
Proof.
  refine (get_ratings_conversion_is_all_or_nothing "Breaking Bad" 0%nat
            unrated_session bb_world [bb_entry] bb_entry plain_page 1 1
            (Soup.Tag "html" [] [Soup.Tag "body" [] [full_block; unrated_block]])
            unrated_block
            {| r_series_name := "Breaking Bad";
               r_series_rank := "1";
               r_series_origin_year := "2008";
               r_series_link := "/title/tt0903747/";
               r_series_n_seasons := 1;
               r_season := 1;
               r_episode := "1";
               r_episode_rating := PStr "n/a";
               r_episode_total_votes := PInt 0;
               r_episode_description := "N/A" |}
            ValueError eq_refl eq_refl eq_refl eq_refl _ eq_refl _ eq_refl eq_refl).
  - apply list_elem_of_here.
  - apply list_elem_of_further, list_elem_of_here.
Defined.

(** ** [get_ratings]: the vote text *)


(** ** [get_ratings]: a season that fails *)



